(** * KivyMD: elevation behaviour and chip widget

    A shallow embedding of [kivymd/uix/behaviors/elevation.py]
    ([CommonElevationBehavior]) and [kivymd/uix/chip/chip.py] ([MDChip]).

    Conventions of the embedding.

    - In the embedding of the whole behaviour ([Elevation]) the numbers
      held by Kivy numeric properties are exact rationals [Q] and [/] is
      exact division.  The arithmetic of the shadow quad, where rounding
      matters, is embedded a second time ([FloatElevation]) with IEEE 754
      binary64 numbers and a quad that stores binary32 values.
    - A method of a widget is a computation in the monad [M] over the
      widget's state: it may read and write the attributes and may raise a
      Python exception; the state reached when the exception is raised is
      kept, since attribute writes made before it are not rolled back.
    - [Clock.schedule_once (f)] appends the closure [f] to the queue
      [clock]; [run_callback] is what the toolkit does with a queued closure
      on the next frame.
    - Assigning a Kivy property stores the value and dispatches the
      [on_<name>] handler when the value differs from the stored one. *)

From Stdlib Require Import QArith String List Bool Lia Lqa SpecFloat.
From stdpp Require Import base gmap strings.
Import ListNotations.

Set Default Proof Using "Type".

(** ** Python values, exceptions and the method monad *)

Inductive exn :=
| AttributeError (attr : string)
| IndexError
| ValueError
| OSError (path : string).

Inductive result (S A : Type) :=
| Ok (a : A) (s : S)
| Raise (e : exn) (s : S).
Arguments Ok {S A} a s.
Arguments Raise {S A} e s.

Definition M (S A : Type) : Type := S -> result S A.

Definition ret {S A} (a : A) : M S A := fun s => Ok a s.

Definition bind {S A B} (m : M S A) (k : A -> M S B) : M S B :=
  fun s => match m s with
           | Ok a s' => k a s'
           | Raise e s' => Raise e s'
           end.

Definition raise {S A} (e : exn) : M S A := fun s => Raise e s.
Definition gets {S A} (f : S -> A) : M S A := fun s => Ok (f s) s.
Definition modify {S} (f : S -> S) : M S unit := fun s => Ok tt (f s).

Declare Scope py_scope.
Delimit Scope py_scope with py.
Notation "x <- c1 ;; c2" := (bind c1 (fun x => c2))
  (at level 100, c1 at next level, right associativity) : py_scope.
Notation "c1 ;; c2" := (bind c1 (fun _ => c2))
  (at level 100, right associativity) : py_scope.

(** The final state of a run, whether it returned or raised. *)
Definition final {S A} (r : result S A) : S :=
  match r with Ok _ s => s | Raise _ s => s end.

Definition raised {S A} (r : result S A) : option exn :=
  match r with Ok _ _ => None | Raise e _ => Some e end.

(** A two-component numeric value: [pos], [size], [shadow_offset]. *)
Definition vec2 : Type := (Q * Q)%type.

(** [a == b] on Python lists of numbers. *)
Fixpoint list_eqb (a b : list Q) : bool :=
  match a, b with
  | [], [] => true
  | x :: a', y :: b' => Qeq_bool x y && list_eqb a' b'
  | _, _ => false
  end.

Definition vec2_eqb (a b : vec2) : bool :=
  Qeq_bool (fst a) (fst b) && Qeq_bool (snd a) (snd b).

(** [needle in hay] on Python strings. *)
Fixpoint contains (needle hay : string) : bool :=
  String.prefix needle hay ||
  match hay with
  | EmptyString => false
  | String _ hay' => contains needle hay'
  end.

(** A value stored in a shader uniform. *)
Inductive uniform :=
| UFloat (x : Q)
| UList (l : list Q).

Module Elevation.

Local Open Scope Q_scope.
Local Open Scope py_scope.

(** *** The render target *)

(** [self.rect = RoundedRectangle(pos=..., size=...)]: the shadow quad. *)
Record RoundedRectangle := mkRect {
  rect_pos : vec2;
  rect_size : vec2
}.

(** [self.context = RenderContext(...)]: the flag
    [use_parent_modelview], the named uniforms written with
    [context["name"] = value], and the fragment shader source. *)
Record RenderContext := mkContext {
  use_parent_modelview : bool;
  uniforms : gmap string uniform;
  shader_fs : option string
}.

(** Identity of a toolkit object that owns a [transition] property (a
    screen manager or a bottom-navigation panel). *)
Definition obj_id : Type := nat.

(** Closures handed to [Clock.schedule_once], with the values they
    capture. *)
Inductive callback :=
| cb_after_init
| cb_check_for_relative_behavior
| cb_set_shader_string
| cb_after_init_elevation
| cb_on_shadow_color (value : list Q)
| cb_on_shadow_radius (value : list Q)
| cb_on_shadow_softness (value : Q)
| cb_on_elevation (value : Q).

(** The state of one [CommonElevationBehavior] instance. *)
Record Widget := mkWidget {
  (* properties inherited from kivy.uix.widget.Widget *)
  pos : vec2;
  size : vec2;
  opacity : Q;
  disabled : bool;
  window_pos : vec2;              (* self.to_window( *self.pos) *)
  (* properties declared by CommonElevationBehavior *)
  elevation : Q;
  shadow_radius : list Q;
  shadow_softness : Q;
  shadow_offset : vec2;
  shadow_color : list Q;
  _transition_ref : option obj_id;
  _has_relative_position : bool;
  _elevation : Q;
  _shadow_color : list Q;
  (* attributes created by __init__; None is "hasattr is false" *)
  context : option RenderContext;
  rect : option RoundedRectangle;
  (* toolkit state the behaviour registers itself in *)
  clock : list callback;
  screen_events_bound : bool;
  window_on_draw_bound : bool
}.

(** The class-level defaults of the declared properties. *)
Definition default_widget (p s : vec2) (wp : vec2) : Widget :=
  {| pos := p; size := s; opacity := 1; disabled := false; window_pos := wp;
     elevation := 0;
     shadow_radius := [0; 0; 0; 0];
     shadow_softness := 12;
     shadow_offset := (0, 2);
     shadow_color := [0; 0; 0; 0.6];
     _transition_ref := None;
     _has_relative_position := false;
     _elevation := 0;
     _shadow_color := [0; 0; 0; 0];
     context := None;
     rect := None;
     clock := [];
     screen_events_bound := false;
     window_on_draw_bound := false |}.

(** *** Attribute writes *)

Definition set_disabled (v : bool) (w : Widget) : Widget :=
  mkWidget (pos w) (size w) (opacity w) v (window_pos w)
    (elevation w) (shadow_radius w) (shadow_softness w) (shadow_offset w)
    (shadow_color w) (_transition_ref w) (_has_relative_position w)
    (_elevation w) (_shadow_color w) (context w) (rect w) (clock w)
    (screen_events_bound w) (window_on_draw_bound w).

Definition set_elevation (v : Q) (w : Widget) : Widget :=
  mkWidget (pos w) (size w) (opacity w) (disabled w) (window_pos w)
    v (shadow_radius w) (shadow_softness w) (shadow_offset w)
    (shadow_color w) (_transition_ref w) (_has_relative_position w)
    (_elevation w) (_shadow_color w) (context w) (rect w) (clock w)
    (screen_events_bound w) (window_on_draw_bound w).

Definition set_shadow_radius (v : list Q) (w : Widget) : Widget :=
  mkWidget (pos w) (size w) (opacity w) (disabled w) (window_pos w)
    (elevation w) v (shadow_softness w) (shadow_offset w)
    (shadow_color w) (_transition_ref w) (_has_relative_position w)
    (_elevation w) (_shadow_color w) (context w) (rect w) (clock w)
    (screen_events_bound w) (window_on_draw_bound w).

Definition set_shadow_offset (v : vec2) (w : Widget) : Widget :=
  mkWidget (pos w) (size w) (opacity w) (disabled w) (window_pos w)
    (elevation w) (shadow_radius w) (shadow_softness w) v
    (shadow_color w) (_transition_ref w) (_has_relative_position w)
    (_elevation w) (_shadow_color w) (context w) (rect w) (clock w)
    (screen_events_bound w) (window_on_draw_bound w).

Definition set__transition_ref (v : option obj_id) (w : Widget) : Widget :=
  mkWidget (pos w) (size w) (opacity w) (disabled w) (window_pos w)
    (elevation w) (shadow_radius w) (shadow_softness w) (shadow_offset w)
    (shadow_color w) v (_has_relative_position w)
    (_elevation w) (_shadow_color w) (context w) (rect w) (clock w)
    (screen_events_bound w) (window_on_draw_bound w).

Definition set__has_relative_position (v : bool) (w : Widget) : Widget :=
  mkWidget (pos w) (size w) (opacity w) (disabled w) (window_pos w)
    (elevation w) (shadow_radius w) (shadow_softness w) (shadow_offset w)
    (shadow_color w) (_transition_ref w) v
    (_elevation w) (_shadow_color w) (context w) (rect w) (clock w)
    (screen_events_bound w) (window_on_draw_bound w).

Definition set__elevation (v : Q) (w : Widget) : Widget :=
  mkWidget (pos w) (size w) (opacity w) (disabled w) (window_pos w)
    (elevation w) (shadow_radius w) (shadow_softness w) (shadow_offset w)
    (shadow_color w) (_transition_ref w) (_has_relative_position w)
    v (_shadow_color w) (context w) (rect w) (clock w)
    (screen_events_bound w) (window_on_draw_bound w).

Definition set__shadow_color (v : list Q) (w : Widget) : Widget :=
  mkWidget (pos w) (size w) (opacity w) (disabled w) (window_pos w)
    (elevation w) (shadow_radius w) (shadow_softness w) (shadow_offset w)
    (shadow_color w) (_transition_ref w) (_has_relative_position w)
    (_elevation w) v (context w) (rect w) (clock w)
    (screen_events_bound w) (window_on_draw_bound w).

Definition set_context (v : option RenderContext) (w : Widget) : Widget :=
  mkWidget (pos w) (size w) (opacity w) (disabled w) (window_pos w)
    (elevation w) (shadow_radius w) (shadow_softness w) (shadow_offset w)
    (shadow_color w) (_transition_ref w) (_has_relative_position w)
    (_elevation w) (_shadow_color w) v (rect w) (clock w)
    (screen_events_bound w) (window_on_draw_bound w).

Definition set_rect (v : option RoundedRectangle) (w : Widget) : Widget :=
  mkWidget (pos w) (size w) (opacity w) (disabled w) (window_pos w)
    (elevation w) (shadow_radius w) (shadow_softness w) (shadow_offset w)
    (shadow_color w) (_transition_ref w) (_has_relative_position w)
    (_elevation w) (_shadow_color w) (context w) v (clock w)
    (screen_events_bound w) (window_on_draw_bound w).

Definition set_clock (v : list callback) (w : Widget) : Widget :=
  mkWidget (pos w) (size w) (opacity w) (disabled w) (window_pos w)
    (elevation w) (shadow_radius w) (shadow_softness w) (shadow_offset w)
    (shadow_color w) (_transition_ref w) (_has_relative_position w)
    (_elevation w) (_shadow_color w) (context w) (rect w) v
    (screen_events_bound w) (window_on_draw_bound w).

Definition set_screen_events_bound (v : bool) (w : Widget) : Widget :=
  mkWidget (pos w) (size w) (opacity w) (disabled w) (window_pos w)
    (elevation w) (shadow_radius w) (shadow_softness w) (shadow_offset w)
    (shadow_color w) (_transition_ref w) (_has_relative_position w)
    (_elevation w) (_shadow_color w) (context w) (rect w) (clock w)
    v (window_on_draw_bound w).

Definition set_window_on_draw_bound (v : bool) (w : Widget) : Widget :=
  mkWidget (pos w) (size w) (opacity w) (disabled w) (window_pos w)
    (elevation w) (shadow_radius w) (shadow_softness w) (shadow_offset w)
    (shadow_color w) (_transition_ref w) (_has_relative_position w)
    (_elevation w) (_shadow_color w) (context w) (rect w) (clock w)
    (screen_events_bound w) v.

(** *** The widget's surroundings *)

(** What [check_for_relative_behavior] inspects on a widget of the
    ancestor chain. *)
Record Node := mkNode {
  node_str : string;                    (* str(widget) *)
  has_on_pre_enter : bool;              (* hasattr(widget, "on_pre_enter") *)
  header_panel : option obj_id;         (* widget.header.panel, when there is a header *)
  manager : option (option obj_id)      (* widget.manager, when there is one; it may be None *)
}.

Record World := mkWorld {
  lineage : list Node;                  (* self, self.parent, self.parent.parent, ... *)
  transition_str : obj_id -> string;    (* str(obj.transition) *)
  glsl_file : string -> option string   (* contents of glsl_path/elevation/<name> *)
}.

(** *** Attribute reads that can fail, uniforms, the clock *)

Definition get_context : M Widget RenderContext :=
  fun w => match context w with
           | Some c => Ok c w
           | None => Raise (AttributeError "context") w
           end.

Definition get_rect : M Widget RoundedRectangle :=
  fun w => match rect w with
           | Some r => Ok r w
           | None => Raise (AttributeError "rect") w
           end.

(** [self.context[name] = v] *)
Definition context_setitem (name : string) (v : uniform) : M Widget unit :=
  c <- get_context ;;
  modify (set_context
            (Some (mkContext (use_parent_modelview c)
                             (<[name := v]> (uniforms c)) (shader_fs c)))).

(** [self.context.use_parent_modelview = b] *)
Definition set_use_parent_modelview (b : bool) : M Widget unit :=
  c <- get_context ;;
  modify (set_context (Some (mkContext b (uniforms c) (shader_fs c)))).

(** [Clock.schedule_once(cb)] *)
Definition schedule_once (cb : callback) : M Widget unit :=
  modify (fun w => set_clock (clock w ++ [cb]) w).

(** *** Methods of CommonElevationBehavior *)

(** The body of [__init__] after [super().__init__]: a fresh
    [RenderContext] has [use_parent_modelview] off and no uniform set. *)
Definition __init__ : M Widget unit :=
  modify (set_context (Some (mkContext false ∅ None))) ;;
  p <- gets pos ;;
  s <- gets size ;;
  modify (set_rect (Some (mkRect p s))) ;;
  schedule_once cb_after_init.

Definition update_resolution : M Widget unit :=
  r <- get_rect ;;
  context_setitem "resolution"
    (UList [fst (rect_size r); snd (rect_size r);
            fst (rect_pos r); snd (rect_pos r)]).

Definition on_shadow_color (value : list Q) : M Widget unit :=
  schedule_once (cb_on_shadow_color value).

Definition on_shadow_radius (value : list Q) : M Widget unit :=
  schedule_once (cb_on_shadow_radius value).

Definition on_shadow_softness (value : Q) : M Widget unit :=
  schedule_once (cb_on_shadow_softness value).

Definition on_elevation (value : Q) : M Widget unit :=
  schedule_once (cb_on_elevation value).

(** The arithmetic is exact here; [FloatElevation.on_pos] is the same
    method with Python floats and a quad that stores binary32 values. *)
Definition on_pos : M Widget unit :=
  has_rect <- gets rect ;;
  match has_rect with
  | None => ret tt
  | Some _ =>
      hrp <- gets _has_relative_position ;;
      use_window <- (if hrp
                     then c <- get_context ;;
                          ret (negb (use_parent_modelview c))
                     else ret false) ;;
      p <- (if use_window : bool then gets window_pos else gets pos) ;;
      r <- get_rect ;;
      sz <- gets size ;;
      off <- gets shadow_offset ;;
      let new_pos :=
        (fst p - ((fst (rect_size r) - fst sz) / 2) - fst off,
         snd p - ((snd (rect_size r) - snd sz) / 2) - snd off) in
      modify (set_rect (Some (mkRect new_pos (rect_size r)))) ;;
      context_setitem "mouse" (UList [fst new_pos; 0; 0; 0]) ;;
      context_setitem "pos" (UList [fst new_pos; snd new_pos]) ;;
      update_resolution
  end.

(** The arithmetic is exact here; [FloatElevation.on_size] is the same
    method with Python floats and a quad that stores binary32 values. *)
Definition on_size : M Widget unit :=
  has_rect <- gets rect ;;
  match has_rect with
  | None => ret tt
  | Some r =>
      sz <- gets size ;;
      e <- gets _elevation ;;
      soft <- gets shadow_softness ;;
      let new_size := (fst sz + (e * soft / 2), snd sz + (e * soft / 2)) in
      modify (set_rect (Some (mkRect (rect_pos r) new_size))) ;;
      context_setitem "mouse" (UList [fst (rect_pos r); 0; 0; 0]) ;;
      context_setitem "size" (UList [fst new_size; snd new_size]) ;;
      update_resolution
  end.

Definition on_shadow_offset (value : vec2) : M Widget unit :=
  on_size ;; on_pos.

Definition update_window_position : M Widget unit := on_pos.

Definition hide_elevation (hide : bool) : M Widget unit :=
  (if hide
   then e <- gets elevation ;;
        modify (set__elevation (- e)) ;;
        modify (set__shadow_color [0; 0; 0; 0])
   else e <- gets elevation ;;
        modify (set__elevation e) ;;
        sc <- gets shadow_color ;;
        op <- gets opacity ;;
        modify (set__shadow_color (removelast sc ++ [op]))) ;;
  c <- gets _shadow_color ;;
  on_shadow_color c ;;
  on_size ;;
  on_pos.

Definition on_disabled (value : bool) : M Widget unit :=
  if value
  then modify (set__elevation 0) ;; hide_elevation true
  else hide_elevation false.

(** The four indexings of [value] raise IndexError on a shorter list. *)
Definition on_radius_value (value : list Q) : M Widget (list Q) :=
  match value !! 1%nat, value !! 2%nat, value !! 0%nat, value !! 3%nat with
  | Some v1, Some v2, Some v0, Some v3 => ret [v1; v2; v0; v3]
  | _, _, _, _ => raise IndexError
  end.

(** [self.shadow_radius = v]: a changed value is stored and dispatched. *)
Definition assign_shadow_radius (v : list Q) : M Widget unit :=
  old <- gets shadow_radius ;;
  if list_eqb old v then ret tt
  else modify (set_shadow_radius v) ;; on_shadow_radius v.

Definition on_radius (value : list Q) : M Widget unit :=
  v <- on_radius_value value ;;
  assign_shadow_radius v.

(** [self.disabled = v] *)
Definition assign_disabled (v : bool) : M Widget unit :=
  old <- gets disabled ;;
  if Bool.eqb old v then ret tt
  else modify (set_disabled v) ;; on_disabled v.

(** Modelled from the spec: the validation a [BoundedNumericProperty]
    applies to an assigned value.  It is code of the toolkit and no
    source file has it; the spec says that an invalid (below-minimum) value
    is replaced by the bound through the property's own validation and is
    not an error.  The declaration
    [elevation = BoundedNumericProperty(0, min=0, errorvalue=0)] supplies
    [min] and [errorvalue]; without an [errorvalue] the invalid value is
    a ValueError. *)
Definition BoundedNumericProperty_validate (min : Q) (errorvalue : option Q)
  (value : Q) : M Widget Q :=
  if Qle_bool min value then ret value
  else match errorvalue with
       | Some ev => ret ev
       | None => raise ValueError
       end.

Definition elevation_min : Q := 0.
Definition elevation_errorvalue : option Q := Some 0.

(** [self.elevation = v] *)
Definition assign_elevation (v : Q) : M Widget unit :=
  stored <- BoundedNumericProperty_validate elevation_min
              elevation_errorvalue v ;;
  old <- gets elevation ;;
  if Qeq_bool old stored then ret tt
  else modify (set_elevation stored) ;; on_elevation stored.

(** [self.shadow_offset = v] *)
Definition assign_shadow_offset (v : vec2) : M Widget unit :=
  old <- gets shadow_offset ;;
  if vec2_eqb old v then ret tt
  else modify (set_shadow_offset v) ;; on_shadow_offset v.

Definition apply_correction (world : World) : M Widget unit :=
  ref <- gets _transition_ref ;;
  match ref with
  | Some o =>
      let transition := transition_str world o in
      if contains "SlideTransition" transition
         || contains "CardTransition" transition
      then set_use_parent_modelview false
      else set_use_parent_modelview true
  | None => ret tt
  end.

Definition reset_correction : M Widget unit :=
  set_use_parent_modelview false ;;
  update_window_position.

(** The loop of [check_for_relative_behavior], started at [widget] with
    [parents] the chain above it.  A [Node] with a header has a header
    with a panel; [Lineage.walk_ancestors] is the same loop over ancestors
    whose header may lack one. *)
Fixpoint walk_ancestors (widget : Node) (parents : list Node)
  : M Widget unit :=
  if has_on_pre_enter widget then
    modify (set_screen_events_bound true) ;;
    modify (set__has_relative_position true) ;;
    match header_panel widget with
    | Some panel => modify (set__transition_ref (Some panel))
    | None =>
        match manager widget with
        | Some (Some m) => modify (set__transition_ref (Some m))
        | _ => ret tt
        end
    end
  else
    match parents with
    | parent :: rest =>
        if negb (String.eqb (node_str widget) (node_str parent))
        then walk_ancestors parent rest
        else ret tt
    | [] => ret tt
    end.

(** Whether that loop reaches a widget with [on_pre_enter]. *)
Fixpoint finds_screen (widget : Node) (parents : list Node) : bool :=
  has_on_pre_enter widget ||
  match parents with
  | parent :: rest =>
      negb (String.eqb (node_str widget) (node_str parent))
      && finds_screen parent rest
  | [] => false
  end.

Definition lineage_finds_screen (world : World) : bool :=
  match lineage world with
  | self :: parents => finds_screen self parents
  | [] => false
  end.

Definition check_for_relative_behavior (world : World) : M Widget unit :=
  p <- gets pos ;;
  wp <- gets window_pos ;;
  (if negb (vec2_eqb p wp)
   then modify (set__has_relative_position true) else ret tt) ;;
  match lineage world with
  | self :: parents => walk_ancestors self parents
  | [] => ret tt
  end ;;
  hrp <- gets _has_relative_position ;;
  if hrp then modify (set_window_on_draw_bound true) else ret tt.

Definition newline : string := String (Ascii.ascii_of_nat 10) EmptyString.

Fixpoint read_shader_files (world : World) (names : list string)
  (shader_string : string) : M Widget string :=
  match names with
  | [] => ret shader_string
  | name_file :: rest =>
      match glsl_file world name_file with
      | Some text =>
          read_shader_files world rest
            (shader_string ++ text ++ newline ++ newline)%string
      | None => raise (OSError name_file)
      end
  end.

Definition get_shader_string (world : World) : M Widget string :=
  read_shader_files world ["header.frag"; "elevation.frag"; "main.frag"]%string
    EmptyString.

Definition set_shader_string (world : World) : M Widget unit :=
  sr <- gets shadow_radius ;;
  context_setitem "shadow_radius" (UList sr) ;;
  soft <- gets shadow_softness ;;
  context_setitem "shadow_softness" (UFloat soft) ;;
  sc <- gets shadow_color ;;
  op <- gets opacity ;;
  context_setitem "shadow_color" (UList (removelast sc ++ [op])) ;;
  r <- get_rect ;;
  context_setitem "pos" (UList [fst (rect_pos r); snd (rect_pos r)]) ;;
  fs <- get_shader_string world ;;
  c <- get_context ;;
  modify (set_context
            (Some (mkContext (use_parent_modelview c) (uniforms c) (Some fs)))).

Definition after_init : M Widget unit :=
  schedule_once cb_check_for_relative_behavior ;;
  schedule_once cb_set_shader_string ;;
  schedule_once cb_after_init_elevation ;;
  on_pos.

(** *** Bodies of the deferred closures *)

Definition deferred_on_shadow_color (value : list Q) : M Widget unit :=
  op <- gets opacity ;;
  dis <- gets disabled ;;
  modify (set__shadow_color
            (removelast value ++ [if negb dis then op else 0])) ;;
  c <- gets _shadow_color ;;
  context_setitem "shadow_color" (UList c).

Definition deferred_on_shadow_radius (value : list Q) : M Widget unit :=
  has_context <- gets context ;;
  match has_context with
  | Some _ => context_setitem "shadow_radius" (UList value)
  | None => ret tt
  end.

Definition deferred_on_shadow_softness (value : Q) : M Widget unit :=
  has_context <- gets context ;;
  match has_context with
  | Some _ => context_setitem "shadow_softness" (UFloat value)
  | None => ret tt
  end.

Definition deferred_on_elevation (value : Q) : M Widget unit :=
  has_context <- gets context ;;
  match has_context with
  | Some _ =>
      modify (set__elevation value) ;;
      dis <- gets disabled ;;
      hide_elevation (if Qle_bool value 0 || dis then true else false)
  | None => ret tt
  end.

(** What the clock does with a queued closure. *)
Definition run_callback (world : World) (cb : callback) : M Widget unit :=
  match cb with
  | cb_after_init => after_init
  | cb_check_for_relative_behavior => check_for_relative_behavior world
  | cb_set_shader_string => set_shader_string world
  | cb_after_init_elevation => e <- gets elevation ;; on_elevation e
  | cb_on_shadow_color value => deferred_on_shadow_color value
  | cb_on_shadow_radius value => deferred_on_shadow_radius value
  | cb_on_shadow_softness value => deferred_on_shadow_softness value
  | cb_on_elevation value => deferred_on_elevation value
  end.

(** One clock step: the oldest queued closure is removed and run. *)
Definition tick (world : World) : M Widget unit :=
  q <- gets clock ;;
  match q with
  | [] => ret tt
  | cb :: rest => modify (set_clock rest) ;; run_callback world cb
  end.

Fixpoint ticks (n : nat) (world : World) : M Widget unit :=
  match n with
  | O => ret tt
  | S n' => tick world ;; ticks n' world
  end.

(** *** Screen lifecycle events of the bound ancestor *)

Inductive screen_event := on_pre_enter | on_pre_leave | on_enter | on_leave.

Definition dispatch_screen_event (world : World) (ev : screen_event)
  : M Widget unit :=
  bound <- gets screen_events_bound ;;
  if bound : bool then
    match ev with
    | on_pre_enter | on_pre_leave => apply_correction world
    | on_enter | on_leave => reset_correction
    end
  else ret tt.

(** *** The coordinate frame

    [on_pos] reads [window_pos] when [_has_relative_position] is set and
    [use_parent_modelview] is off, and [pos] otherwise. *)

Inductive frame := LOCAL | ABSOLUTE.

Definition frame_of (has_relative_position parent_modelview : bool) : frame :=
  if has_relative_position && negb parent_modelview then ABSOLUTE else LOCAL.

Definition coordinate_frame (w : Widget) : option frame :=
  match context w with
  | Some c => Some (frame_of (_has_relative_position w) (use_parent_modelview c))
  | None => None
  end.

Definition frame_pos (f : frame) (w : Widget) : vec2 :=
  match f with
  | ABSOLUTE => window_pos w
  | LOCAL => pos w
  end.

(** *** Further closures and bookkeeping *)

(** The closure that [on_opacity] hands to the clock, with the new opacity
    [value] it captures. *)
Definition deferred_on_opacity (value : Q) : M Widget unit :=
  sc <- gets _shadow_color ;;
  modify (set__shadow_color (removelast sc ++ [value])) ;;
  c <- gets _shadow_color ;;
  context_setitem "shadow_color" (UList c).

(** The relative-position bookkeeping of a widget: the flag, the
    transition reference and the two event bindings. *)
Definition bookkeeping (w : Widget)
  : bool * option obj_id * bool * bool :=
  (_has_relative_position w, _transition_ref w,
   screen_events_bound w, window_on_draw_bound w).

(** Events are bound only on a widget flagged as relatively positioned. *)
Definition bound_only_if_relative (w : Widget) : Prop :=
  (screen_events_bound w = true -> _has_relative_position w = true) /\
  (window_on_draw_bound w = true -> _has_relative_position w = true).

(** [m] leaves the bookkeeping as it is, whether it returns or raises. *)
Definition keeps_bookkeeping {A} (m : M Widget A) : Prop :=
  forall w, bookkeeping (final (m w)) = bookkeeping w.

End Elevation.

(** ** Binary floating point

    A Python [float] is an IEEE 754 binary64 number and its arithmetic
    rounds to nearest, ties to even.  The vertex instruction behind
    [self.rect] keeps its [pos] and [size] as binary32 numbers: a value
    assigned there is rounded to binary32 and is read back as the binary64
    number of that value. *)

Module Binary.

Definition float : Type := spec_float.

Definition fadd : float -> float -> float := SFadd 53 1024.
Definition fsub : float -> float -> float := SFsub 53 1024.
Definition fmul : float -> float -> float := SFmul 53 1024.
Definition fdiv : float -> float -> float := SFdiv 53 1024.
Definition fopp : float -> float := SFopp.

(** [a <= b]; false when either side is not a number. *)
Definition fleb : float -> float -> bool := SFleb.

(** The float of an integer literal. *)
Definition of_Z (z : Z) : float := binary_normalize 53 1024 z 0 false.

Definition zero : float := S754_zero false.
Definition two : float := of_Z 2.

(** The decimal literal [n / 10^k], rounded once: [decimal 1 1] is the
    float that Python writes 0.1. *)
Definition decimal (n : Z) (k : positive) : float :=
  fdiv (of_Z n) (of_Z (Z.pow_pos 10 k)).

(** What a binary32 slot holds after [x] is stored in it, as a float. *)
Definition single (x : float) : float :=
  match x with
  | S754_finite s m e =>
      match binary_round 24 128 s m e with
      | S754_finite s' m' e' => binary_round 53 1024 s' m' e'
      | y => y
      end
  | _ => x
  end.

(** The exact value of a finite float. *)
Definition F2Q (x : float) : option Q :=
  match x with
  | S754_zero _ => Some 0%Q
  | S754_finite s m e =>
      let v := match e with
               | Zneg p => (Zpos m # Pos.pow 2 p)%Q
               | _ => inject_Z (Zpos m * 2 ^ e)
               end in
      Some (if s then Qopp v else v)
  | _ => None
  end.

End Binary.

(** ** The geometry of the shadow quad in floating point

    The handlers that size and place the shadow quad, embedded a second
    time with Python floats for the numbers and a quad that stores
    binary32 values.  An [int] held by a property is the float of the same
    value.  The widget state keeps the attributes that these handlers read
    or write. *)

Module FloatElevation.

Import Binary.
Local Open Scope py_scope.

Definition vec2 : Type := (float * float)%type.

(** What the quad holds after [v] is assigned to its [pos] or [size]. *)
Definition stored (v : vec2) : vec2 := (single (fst v), single (snd v)).

Inductive uniform :=
| UList (l : list float).

Record RoundedRectangle := mkRect {
  rect_pos : vec2;
  rect_size : vec2
}.

Record RenderContext := mkContext {
  use_parent_modelview : bool;
  uniforms : gmap string uniform
}.

Inductive callback :=
| cb_after_init
| cb_on_shadow_color (value : list float).

Record Widget := mkWidget {
  pos : vec2;
  size : vec2;
  opacity : float;
  disabled : bool;
  window_pos : vec2;              (* self.to_window( *self.pos) *)
  elevation : float;
  shadow_softness : float;
  shadow_offset : vec2;
  shadow_color : list float;
  _has_relative_position : bool;
  _elevation : float;
  _shadow_color : list float;
  context : option RenderContext;
  rect : option RoundedRectangle;
  clock : list callback
}.

(** The class-level defaults of the declared properties. *)
Definition default_widget (p s : vec2) (wp : vec2) : Widget :=
  {| pos := p; size := s; opacity := of_Z 1; disabled := false;
     window_pos := wp;
     elevation := of_Z 0;
     shadow_softness := of_Z 12;
     shadow_offset := (of_Z 0, of_Z 2);
     shadow_color := [zero; zero; zero; decimal 6 1];
     _has_relative_position := false;
     _elevation := of_Z 0;
     _shadow_color := [zero; zero; zero; zero];
     context := None;
     rect := None;
     clock := [] |}.

Definition set_disabled (v : bool) (w : Widget) : Widget :=
  mkWidget (pos w) (size w) (opacity w) v (window_pos w)
    (elevation w) (shadow_softness w) (shadow_offset w) (shadow_color w)
    (_has_relative_position w) (_elevation w) (_shadow_color w)
    (context w) (rect w) (clock w).

Definition set_elevation (v : float) (w : Widget) : Widget :=
  mkWidget (pos w) (size w) (opacity w) (disabled w) (window_pos w)
    v (shadow_softness w) (shadow_offset w) (shadow_color w)
    (_has_relative_position w) (_elevation w) (_shadow_color w)
    (context w) (rect w) (clock w).

Definition set_shadow_offset (v : vec2) (w : Widget) : Widget :=
  mkWidget (pos w) (size w) (opacity w) (disabled w) (window_pos w)
    (elevation w) (shadow_softness w) v (shadow_color w)
    (_has_relative_position w) (_elevation w) (_shadow_color w)
    (context w) (rect w) (clock w).

Definition set__elevation (v : float) (w : Widget) : Widget :=
  mkWidget (pos w) (size w) (opacity w) (disabled w) (window_pos w)
    (elevation w) (shadow_softness w) (shadow_offset w) (shadow_color w)
    (_has_relative_position w) v (_shadow_color w)
    (context w) (rect w) (clock w).

Definition set__shadow_color (v : list float) (w : Widget) : Widget :=
  mkWidget (pos w) (size w) (opacity w) (disabled w) (window_pos w)
    (elevation w) (shadow_softness w) (shadow_offset w) (shadow_color w)
    (_has_relative_position w) (_elevation w) v
    (context w) (rect w) (clock w).

Definition set_context (v : option RenderContext) (w : Widget) : Widget :=
  mkWidget (pos w) (size w) (opacity w) (disabled w) (window_pos w)
    (elevation w) (shadow_softness w) (shadow_offset w) (shadow_color w)
    (_has_relative_position w) (_elevation w) (_shadow_color w)
    v (rect w) (clock w).

Definition set_rect (v : option RoundedRectangle) (w : Widget) : Widget :=
  mkWidget (pos w) (size w) (opacity w) (disabled w) (window_pos w)
    (elevation w) (shadow_softness w) (shadow_offset w) (shadow_color w)
    (_has_relative_position w) (_elevation w) (_shadow_color w)
    (context w) v (clock w).

Definition set_clock (v : list callback) (w : Widget) : Widget :=
  mkWidget (pos w) (size w) (opacity w) (disabled w) (window_pos w)
    (elevation w) (shadow_softness w) (shadow_offset w) (shadow_color w)
    (_has_relative_position w) (_elevation w) (_shadow_color w)
    (context w) (rect w) v.

Definition get_context : M Widget RenderContext :=
  fun w => match context w with
           | Some c => Ok c w
           | None => Raise (AttributeError "context") w
           end.

Definition get_rect : M Widget RoundedRectangle :=
  fun w => match rect w with
           | Some r => Ok r w
           | None => Raise (AttributeError "rect") w
           end.

Definition context_setitem (name : string) (v : uniform) : M Widget unit :=
  c <- get_context ;;
  modify (set_context
            (Some (mkContext (use_parent_modelview c)
                             (<[name := v]> (uniforms c))))).

Definition schedule_once (cb : callback) : M Widget unit :=
  modify (fun w => set_clock (clock w ++ [cb]) w).

Definition __init__ : M Widget unit :=
  modify (set_context (Some (mkContext false ∅))) ;;
  p <- gets pos ;;
  s <- gets size ;;
  modify (set_rect (Some (mkRect (stored p) (stored s)))) ;;
  schedule_once cb_after_init.

Definition update_resolution : M Widget unit :=
  r <- get_rect ;;
  context_setitem "resolution"
    (UList [fst (rect_size r); snd (rect_size r);
            fst (rect_pos r); snd (rect_pos r)]).

Definition on_shadow_color (value : list float) : M Widget unit :=
  schedule_once (cb_on_shadow_color value).

Definition on_pos : M Widget unit :=
  has_rect <- gets rect ;;
  match has_rect with
  | None => ret tt
  | Some _ =>
      hrp <- gets _has_relative_position ;;
      use_window <- (if hrp
                     then c <- get_context ;;
                          ret (negb (use_parent_modelview c))
                     else ret false) ;;
      p <- (if use_window : bool then gets window_pos else gets pos) ;;
      r <- get_rect ;;
      sz <- gets size ;;
      off <- gets shadow_offset ;;
      let new_pos :=
        (fsub (fsub (fst p) (fdiv (fsub (fst (rect_size r)) (fst sz)) two))
              (fst off),
         fsub (fsub (snd p) (fdiv (fsub (snd (rect_size r)) (snd sz)) two))
              (snd off)) in
      modify (set_rect (Some (mkRect (stored new_pos) (rect_size r)))) ;;
      r' <- get_rect ;;
      context_setitem "mouse" (UList [fst (rect_pos r'); zero; zero; zero]) ;;
      context_setitem "pos" (UList [fst (rect_pos r'); snd (rect_pos r')]) ;;
      update_resolution
  end.

Definition on_size : M Widget unit :=
  has_rect <- gets rect ;;
  match has_rect with
  | None => ret tt
  | Some r =>
      sz <- gets size ;;
      e <- gets _elevation ;;
      soft <- gets shadow_softness ;;
      let new_size :=
        (fadd (fst sz) (fdiv (fmul e soft) two),
         fadd (snd sz) (fdiv (fmul e soft) two)) in
      modify (set_rect (Some (mkRect (rect_pos r) (stored new_size)))) ;;
      r' <- get_rect ;;
      context_setitem "mouse" (UList [fst (rect_pos r'); zero; zero; zero]) ;;
      context_setitem "size" (UList [fst (rect_size r'); snd (rect_size r')]) ;;
      update_resolution
  end.

Definition hide_elevation (hide : bool) : M Widget unit :=
  (if hide
   then e <- gets elevation ;;
        modify (set__elevation (fopp e)) ;;
        modify (set__shadow_color [zero; zero; zero; zero])
   else e <- gets elevation ;;
        modify (set__elevation e) ;;
        sc <- gets shadow_color ;;
        op <- gets opacity ;;
        modify (set__shadow_color (removelast sc ++ [op]))) ;;
  c <- gets _shadow_color ;;
  on_shadow_color c ;;
  on_size ;;
  on_pos.

Definition on_disabled (value : bool) : M Widget unit :=
  if value
  then modify (set__elevation (of_Z 0)) ;; hide_elevation true
  else hide_elevation false.

(** [self.disabled = v] *)
Definition assign_disabled (v : bool) : M Widget unit :=
  old <- gets disabled ;;
  if Bool.eqb old v then ret tt
  else modify (set_disabled v) ;; on_disabled v.

(** The closure that [on_elevation] hands to the clock. *)
Definition deferred_on_elevation (value : float) : M Widget unit :=
  has_context <- gets context ;;
  match has_context with
  | Some _ =>
      modify (set__elevation value) ;;
      dis <- gets disabled ;;
      hide_elevation (if fleb value (of_Z 0) || dis then true else false)
  | None => ret tt
  end.

(** The position [on_pos] starts from: the window position when the widget
    is flagged as relatively positioned and [use_parent_modelview] is off,
    the local position otherwise. *)
Definition host_position (w : Widget) (c : RenderContext) : vec2 :=
  if _has_relative_position w && negb (use_parent_modelview c)
  then window_pos w else pos w.

End FloatElevation.

(** ** The ancestor chain with its header attributes

    [check_for_relative_behavior] embedded a second time over ancestors
    that record how [widget.header.panel] evaluates: a bottom-navigation
    tab has the attribute [header], and it is None until the tab is added
    to a panel. *)

Module Lineage.

Import Elevation.
Local Open Scope py_scope.

Inductive header_attribute :=
| header_absent                         (* hasattr(widget, "header") is false *)
| header_without_panel                  (* widget.header is None or has no panel *)
| header_with_panel (panel : option obj_id).  (* widget.header.panel *)

Record Ancestor := mkAncestor {
  ancestor_str : string;                    (* str(widget) *)
  ancestor_on_pre_enter : bool;             (* hasattr(widget, "on_pre_enter") *)
  ancestor_header : header_attribute;
  ancestor_manager : option (option obj_id) (* widget.manager, when there is one; it may be None *)
}.

(** The loop of [check_for_relative_behavior], started at [widget] with
    [parents] the chain above it.  [widget.header.panel] raises
    AttributeError on a header without panel, after the four screen events
    are bound and the flag is set. *)
Fixpoint walk_ancestors (widget : Ancestor) (parents : list Ancestor)
  : M Widget unit :=
  if ancestor_on_pre_enter widget then
    modify (set_screen_events_bound true) ;;
    modify (set__has_relative_position true) ;;
    match ancestor_header widget with
    | header_with_panel panel => modify (set__transition_ref panel)
    | header_without_panel => raise (AttributeError "panel")
    | header_absent =>
        match ancestor_manager widget with
        | Some (Some m) => modify (set__transition_ref (Some m))
        | _ => ret tt
        end
    end
  else
    match parents with
    | parent :: rest =>
        if negb (String.eqb (ancestor_str widget) (ancestor_str parent))
        then walk_ancestors parent rest
        else ret tt
    | [] => ret tt
    end.

Definition check_for_relative_behavior (chain : list Ancestor)
  : M Widget unit :=
  p <- gets pos ;;
  wp <- gets window_pos ;;
  (if negb (vec2_eqb p wp)
   then modify (set__has_relative_position true) else ret tt) ;;
  match chain with
  | self :: parents => walk_ancestors self parents
  | [] => ret tt
  end ;;
  hrp <- gets _has_relative_position ;;
  if hrp then modify (set_window_on_draw_bound true) else ret tt.

(** The widget with [on_pre_enter] at which that loop stops, if any. *)
Fixpoint first_screen (widget : Ancestor) (parents : list Ancestor)
  : option Ancestor :=
  if ancestor_on_pre_enter widget then Some widget
  else
    match parents with
    | parent :: rest =>
        if negb (String.eqb (ancestor_str widget) (ancestor_str parent))
        then first_screen parent rest
        else None
    | [] => None
    end.

Definition chain_screen (chain : list Ancestor) : option Ancestor :=
  match chain with
  | self :: parents => first_screen self parents
  | [] => None
  end.

Definition finds_screen (chain : list Ancestor) : bool :=
  match chain_screen chain with
  | Some _ => true
  | None => false
  end.

(** Whether the loop stops at a widget whose header has no panel. *)
Definition stops_at_header_without_panel (chain : list Ancestor) : bool :=
  match chain_screen chain with
  | Some a =>
      match ancestor_header a with
      | header_without_panel => true
      | _ => false
      end
  | None => false
  end.

(** The clock over such a chain. *)
Definition run_callback (chain : list Ancestor) (world : World)
  (cb : callback) : M Widget unit :=
  match cb with
  | cb_check_for_relative_behavior => check_for_relative_behavior chain
  | _ => Elevation.run_callback world cb
  end.

Definition tick (chain : list Ancestor) (world : World) : M Widget unit :=
  q <- gets clock ;;
  match q with
  | [] => ret tt
  | cb :: rest => modify (set_clock rest) ;; run_callback chain world cb
  end.

Fixpoint ticks (n : nat) (chain : list Ancestor) (world : World)
  : M Widget unit :=
  match n with
  | O => ret tt
  | S n' => tick chain world ;; ticks n' chain world
  end.

End Lineage.

(** ** The chip widget *)

Module Chip.

Local Open Scope Q_scope.
Local Open Scope py_scope.

(** A value an animation drives a property to. *)
Inductive target :=
| Scalar (x : Q)
| Rgba (r g b a : Q).

(** An [Animation] object: the animated properties with their final
    values, the transition name [t] and the duration [d] in seconds. *)
Record Animation := mkAnimation {
  properties : list (string * target);
  t : string;
  d : Q
}.

(** [touch.pos] *)
Record Touch := mkTouch {
  touch_pos : vec2
}.

(** The state of one [MDChip]: the properties its methods read and write,
    the button state kept by the inherited [ButtonBehavior], and the
    animations started so far, each with the id of the child it was
    started on ([self.ids.<name>], provided by the chip's kv rule). *)
Record MDChip := mkChip {
  pos : vec2;
  size : vec2;
  icon_left : string;
  active : bool;
  state : string;
  animations : list (string * Animation)
}.

Definition set_active (v : bool) (c : MDChip) : MDChip :=
  mkChip (pos c) (size c) (icon_left c) v (state c) (animations c).

Definition set_state (v : string) (c : MDChip) : MDChip :=
  mkChip (pos c) (size c) (icon_left c) (active c) v (animations c).

Definition set_animations (v : list (string * Animation)) (c : MDChip)
  : MDChip :=
  mkChip (pos c) (size c) (icon_left c) (active c) (state c) v.

(** [Animation(...).start(self.ids.<widget>)] *)
Definition start (a : Animation) (widget : string) : M MDChip unit :=
  modify (fun c => set_animations (animations c ++ [(widget, a)]) c).

Definition do_animation_check (md_bg_color : target) (scale_value : Q)
  : M MDChip unit :=
  start (mkAnimation [("md_bg_color"%string, md_bg_color)] "out_sine" 0.1)
        "icon_left_box" ;;
  start (mkAnimation [("scale_value_x"%string, Scalar scale_value);
                      ("scale_value_y"%string, Scalar scale_value);
                      ("scale_value_z"%string, Scalar scale_value)]
                     "out_sine" 0.1)
        "check_icon".

Definition on_active (active_value : bool) : M MDChip unit :=
  if active_value
  then do_animation_check (Rgba 0 0 0 0.4) 1
  else do_animation_check (Rgba 0 0 0 0) 0.

(** [self.active = v]: a changed value is stored and dispatched. *)
Definition assign_active (v : bool) : M MDChip unit :=
  old <- gets active ;;
  if Bool.eqb old v then ret tt
  else modify (set_active v) ;; on_active v.

Definition on_long_touch : M MDChip unit :=
  il <- gets icon_left ;;
  if String.eqb il EmptyString then ret tt
  else
    a <- gets active ;;
    if a : bool then ret tt
    else
      a' <- gets active ;;
      assign_active (if negb a' then true else false).

(** [Widget.collide_point(x, y)]:
    [self.x <= x <= self.right and self.y <= y <= self.top]. *)
Definition collide_point (c : MDChip) (p : vec2) : bool :=
  Qle_bool (fst (pos c)) (fst p)
  && Qle_bool (fst p) (fst (pos c) + fst (size c))
  && Qle_bool (snd (pos c)) (snd p)
  && Qle_bool (snd p) (snd (pos c) + snd (size c)).

Section TouchDown.

(** [super().on_touch_down]: the handler of the next class in the method
    resolution order.  [None] is Python's [None]. *)
Variable super_on_touch_down : Touch -> M MDChip (option bool).

Definition on_touch_down (touch : Touch) : M MDChip (option bool) :=
  self <- gets (fun c => c) ;;
  if collide_point self (touch_pos touch) then
    a <- gets active ;;
    (if a : bool then assign_active false else ret tt) ;;
    super_on_touch_down touch
  else ret None.

End TouchDown.

(** A button handler in the manner of [ButtonBehavior.on_touch_down]: it
    presses the button and consumes the touch. *)
Definition press_button (touch : Touch) : M MDChip (option bool) :=
  modify (set_state "down") ;; ret (Some true).

End Chip.

(** ** Concrete widgets and surroundings *)

Module Scenario.

Import Elevation.
Local Open Scope Q_scope.
Local Open Scope py_scope.

Definition button : Node := mkNode "<Button>" false None None.
Definition box : Node := mkNode "<MDBoxLayout>" false None None.

(** A screen managed by the screen manager with identity 7. *)
Definition screen : Node := mkNode "<MDScreen>" true None (Some (Some 7%nat)).

(** A screen that is not in a screen manager: [manager] is None. *)
Definition orphan_screen : Node := mkNode "<MDScreen>" true None (Some None).

Definition glsl (name : string) : option string := Some name.

(** The button sits in a box inside a screen; the manager's transition
    prints as [transition]. *)
Definition world_with (transition : string) : World :=
  mkWorld [button; box; screen] (fun _ => transition) glsl.

Definition fade_world : World :=
  world_with "<kivy.uix.screenmanager.FadeTransition object at 0x7f>".

Definition slide_world : World :=
  world_with "<kivy.uix.screenmanager.SlideTransition object at 0x7f>".

Definition orphan_world : World :=
  mkWorld [button; orphan_screen] (fun _ => EmptyString) glsl.

(** A 100 x 50 widget at (10, 20), whose window position is the same, with
    the class defaults for every elevation property. *)
Definition fresh : Widget := default_widget (10, 20) (100, 50) (10, 20).

(** The widget after [__init__] and the deferred set-up it schedules. *)
Definition attached (world : World) : Widget :=
  final ((__init__ ;; ticks 6 world) fresh).

(** The same with [elevation = e] assigned and its deferred update run. *)
Definition raised_to (e : Q) (world : World) : Widget :=
  final ((assign_elevation e ;; ticks 2 world) (attached world)).

(** The widget right after [__init__], and the same with elevation 4
    stored and in effect. *)
Definition started : Widget := final (__init__ fresh).
Definition lifted : Widget := set__elevation 4 (set_elevation 4 started).

(** The started widget with the screen manager 7 recorded as transition
    reference. *)
Definition managed : Widget := set__transition_ref (Some 7%nat) started.

(** The button in a box with no screen above it. *)
Definition flat_world : World :=
  mkWorld [button; box] (fun _ => EmptyString) glsl.

(** An installation from which [elevation.frag] is missing. *)
Definition broken_world : World :=
  mkWorld [button; box; screen] (fun _ => EmptyString)
    (fun name => if String.eqb name "elevation.frag" then None
                 else Some name).

(** A chip at (0, 0) of size 80 x 32 with a left icon, marked or not. *)
Definition chip (marked : bool) : Chip.MDChip :=
  Chip.mkChip (0, 0) (80, 32) "avatar.png" marked "normal" [].

(** A chip without a left icon. *)
Definition plain_chip : Chip.MDChip :=
  Chip.mkChip (0, 0) (80, 32) EmptyString false "normal" [].

Definition touch_inside : Chip.Touch := Chip.mkTouch (40, 16).
Definition touch_outside : Chip.Touch := Chip.mkTouch (200, 16).

End Scenario.

(** ** Concrete widgets and chains of the second embeddings *)

Module FloatScenario.

Import Binary FloatElevation.
Local Open Scope py_scope.

(** A 100 x 50 widget at (10, 20), whose window position is the same,
    right after [__init__]. *)
Definition started : Widget :=
  final (__init__ (default_widget (of_Z 10, of_Z 20) (of_Z 100, of_Z 50)
                     (of_Z 10, of_Z 20))).

(** The same with elevation 0.1 stored. *)
Definition lifted : Widget := set_elevation (decimal 1 1) started.

End FloatScenario.

Module LineageScenario.

Import Lineage.

Definition button : Ancestor :=
  mkAncestor "<Button>" false header_absent None.

(** A bottom-navigation tab in the panel with identity 9. *)
Definition tab : Ancestor :=
  mkAncestor "<MDBottomNavigationItem>" true
    (header_with_panel (Some 9%nat)) (Some None).

(** A tab that is in no panel yet: its [header] is None. *)
Definition loose_tab : Ancestor :=
  mkAncestor "<MDBottomNavigationItem>" true header_without_panel
    (Some None).

(** A screen managed by the screen manager with identity 7. *)
Definition screen : Ancestor :=
  mkAncestor "<MDScreen>" true header_absent (Some (Some 7%nat)).

End LineageScenario.

(** ** Properties of the elevation behaviour *)

Module ElevationTheory.

Import Elevation.
Local Open Scope Q_scope.
Local Open Scope py_scope.

(** Runs a method on a widget whose fields are explicit: every definition
    of the embedding is unfolded, the arithmetic and the uniform map are
    left as they are. *)
Ltac py_run :=
  cbv beta iota zeta delta
    [bind ret raise gets modify final raised
     get_context get_rect context_setitem set_use_parent_modelview
     schedule_once update_resolution on_shadow_color on_shadow_radius
     on_shadow_softness on_elevation on_pos on_size on_shadow_offset
     update_window_position hide_elevation on_disabled assign_disabled
     apply_correction reset_correction dispatch_screen_event __init__
     deferred_on_shadow_color deferred_on_shadow_radius
     deferred_on_shadow_softness deferred_on_elevation
     coordinate_frame frame_pos
     set_disabled set_elevation set_shadow_radius set_shadow_offset
     set__transition_ref set__has_relative_position set__elevation
     set__shadow_color set_context set_rect set_clock
     set_screen_events_bound set_window_on_draw_bound
     pos size opacity disabled window_pos elevation shadow_radius
     shadow_softness shadow_offset shadow_color _transition_ref
     _has_relative_position _elevation _shadow_color context rect clock
     screen_events_bound window_on_draw_bound
     rect_pos rect_size use_parent_modelview uniforms shader_fs
     fst snd negb orb andb Bool.eqb].

(** Makes the fields of [w] explicit and records what is known of its
    render target. *)
Ltac open_widget w Hc Hr :=
  destruct w as [p s op dis wp el sr soft off sc tref hrp el' sc' ctx rc clk
                   seb wdb];
  cbn [context rect] in Hc, Hr; subst.

Lemma list_eqb_Forall2 (a b : list Q) :
  list_eqb a b = true -> Forall2 Qeq a b.
Proof.
  revert b; induction a as [|x a IH]; intros [|y b] H;
    try discriminate; constructor.
  - apply Qeq_bool_iff. cbn in H. now destruct (Qeq_bool x y).
  - apply IH. cbn in H. now destruct (Qeq_bool x y).
Qed.

Lemma Forall2_Qeq_refl (a : list Q) : Forall2 Qeq a a.
Proof. induction a; constructor; [reflexivity | assumption]. Qed.

(** *** The shadow quad *)

(** [on_pos] on an initialised widget: the quad keeps its size and is
    placed from the position of the current coordinate frame. *)
Lemma on_pos_rect (w : Widget) (c : RenderContext) (r : RoundedRectangle) :
  context w = Some c -> rect w = Some r ->
  exists w', on_pos w = Ok tt w' /\
    rect w' =
      Some (mkRect
              (let p := frame_pos (frame_of (_has_relative_position w)
                                            (use_parent_modelview c)) w in
               (fst p - ((fst (rect_size r) - fst (size w)) / 2)
                  - fst (shadow_offset w),
                snd p - ((snd (rect_size r) - snd (size w)) / 2)
                  - snd (shadow_offset w)))
              (rect_size r)) /\
    _has_relative_position w' = _has_relative_position w /\
    option_map use_parent_modelview (context w')
      = Some (use_parent_modelview c).
Proof.
  intros Hc Hr. open_widget w Hc Hr.
  destruct c as [upm us fs].
  destruct hrp, upm; py_run;
    (eexists; split; [reflexivity | repeat split]).
Qed.

(** C4: the host radii [a, b, c, d] (top-left, top-right, bottom-right,
    bottom-left) handed to [on_radius] always leave the shadow radii equal
    to [b, c, a, d]; the handler never raises on a four-value list. *)
Theorem on_radius_remap (a b c d : Q) (w : Widget) :
  exists w', on_radius [a; b; c; d] w = Ok tt w' /\
             Forall2 Qeq (shadow_radius w') [b; c; a; d].
Proof.
  unfold on_radius, on_radius_value, assign_shadow_radius.
  cbn [lookup list_lookup]. 
  cbv beta iota zeta delta [bind ret gets modify].
  destruct (list_eqb (shadow_radius w) [b; c; a; d]) eqn:E.
  - eexists; split; [reflexivity|]. now apply list_eqb_Forall2.
  - eexists; split; [reflexivity|]. apply Forall2_Qeq_refl.
Qed.


(** C3, as stated, fails on a disabled widget: with elevation 2, softness
    12 and host size (100, 50), a size change leaves the quad at (88, 38),
    not at (112, 62). *)
Lemma hidden_quad_size :
  let w := final ((assign_disabled true ;; on_size)
                    (Scenario.raised_to 2 Scenario.fade_world)) in
  elevation w == 2 /\ shadow_softness w == 12 /\ size w = (100, 50) /\
  match rect w with
  | Some r => fst (rect_size r) == 88 /\ snd (rect_size r) == 38 /\
              ~ fst (rect_size r) == 100 + 2 * 12 / 2 /\
              ~ snd (rect_size r) == 50 + 2 * 12 / 2
  | None => False
  end.
Proof. vm_compute. repeat split; intro H; discriminate H. Qed.

(** *** The coordinate frame *)

Lemma walk_ancestors_effect (parents : list Node) :
  forall (widget : Node) (w : Widget),
  exists w', walk_ancestors widget parents w = Ok tt w' /\
    context w' = context w /\
    _has_relative_position w'
      = _has_relative_position w || finds_screen widget parents.
Proof.
  induction parents as [|parent rest IH]; intros widget w;
    cbn [walk_ancestors finds_screen];
    destruct (has_on_pre_enter widget) eqn:E; cbn [orb].
  - destruct (header_panel widget) as [o|]; [|destruct (manager widget) as [[m|]|]];
      (eexists; split; [reflexivity|]); destruct w; cbn;
      rewrite orb_true_r; split; reflexivity.
  - exists w. rewrite orb_false_r. repeat split.
  - destruct (header_panel widget) as [o|]; [|destruct (manager widget) as [[m|]|]];
      (eexists; split; [reflexivity|]); destruct w; cbn;
      rewrite orb_true_r; split; reflexivity.
  - destruct (negb (node_str widget =? node_str parent)%string); cbn [andb].
    + apply IH.
    + exists w. rewrite orb_false_r. repeat split.
Qed.

Lemma set__has_relative_position_true (w : Widget) :
  context (set__has_relative_position true w) = context w /\
  _has_relative_position (set__has_relative_position true w) = true.
Proof. now destruct w. Qed.

Lemma set_window_on_draw_bound_keeps (b : bool) (w : Widget) :
  context (set_window_on_draw_bound b w) = context w /\
  _has_relative_position (set_window_on_draw_bound b w)
    = _has_relative_position w.
Proof. now destruct w. Qed.

Lemma check_for_relative_behavior_effect (world : World) (w : Widget) :
  exists w', check_for_relative_behavior world w = Ok tt w' /\
    context w' = context w /\
    _has_relative_position w'
      = _has_relative_position w
        || negb (vec2_eqb (pos w) (window_pos w))
        || lineage_finds_screen world.
Proof.
  assert (Hfirst : exists w1,
             context w1 = context w /\
             _has_relative_position w1
             = _has_relative_position w
               || negb (vec2_eqb (pos w) (window_pos w)) /\
             check_for_relative_behavior world w
             = (match lineage world with
                | self :: parents => walk_ancestors self parents
                | [] => ret tt
                end ;;
                hrp <- gets _has_relative_position ;;
                if hrp : bool then modify (set_window_on_draw_bound true)
                else ret tt) w1).
  { unfold check_for_relative_behavior.
    cbv beta iota zeta delta [bind ret gets modify].
    destruct (negb (vec2_eqb (pos w) (window_pos w))).
    - exists (set__has_relative_position true w).
      destruct (set__has_relative_position_true w) as [-> ->].
      now rewrite orb_true_r.
    - exists w. now rewrite orb_false_r. }
  destruct Hfirst as (w1 & Hc1 & Hh1 & ->).
  unfold lineage_finds_screen.
  assert (Hwalk : exists w2,
             match lineage world with
             | self :: parents => walk_ancestors self parents
             | [] => ret tt
             end w1 = Ok tt w2 /\
             context w2 = context w1 /\
             _has_relative_position w2
             = _has_relative_position w1
               || match lineage world with
                  | self :: parents => finds_screen self parents
                  | [] => false
                  end).
  { destruct (lineage world) as [|self parents].
    - exists w1. now rewrite orb_false_r.
    - apply walk_ancestors_effect. }
  destruct Hwalk as (w2 & Hrun & Hc2 & Hh2).
  unfold bind at 1. rewrite Hrun.
  cbv beta iota zeta delta [bind ret gets modify].
  rewrite <- Hh1, <- Hh2, <- Hc1, <- Hc2.
  destruct (_has_relative_position w2) eqn:E.
  - eexists; split; [reflexivity|].
    destruct (set_window_on_draw_bound_keeps true w2) as [-> ->]. now split.
  - exists w2. now repeat split.
Qed.

(** C1, as stated, fails in two places.  After a pre-enter event under a
    fade transition the frame is LOCAL, and the enter event that follows
    makes it ABSOLUTE, not LOCAL.  And for a widget whose screen has no
    manager (no transition reference) a pre-enter event leaves the frame
    ABSOLUTE instead of moving it to LOCAL. *)
Lemma enter_event_frame_is_absolute :
  let faded := dispatch_screen_event Scenario.fade_world on_pre_enter
                 (Scenario.attached Scenario.fade_world) in
  let entered := dispatch_screen_event Scenario.fade_world on_enter
                   (final faded) in
  let orphan := Scenario.attached Scenario.orphan_world in
  let unmoved := dispatch_screen_event Scenario.orphan_world on_pre_enter
                   orphan in
  (raised faded = None /\ coordinate_frame (final faded) = Some LOCAL) /\
  (raised entered = None /\
   coordinate_frame (final entered) = Some ABSOLUTE /\
   coordinate_frame (final entered) <> Some LOCAL) /\
  (_transition_ref orphan = None /\
   coordinate_frame orphan = Some ABSOLUTE /\
   raised unmoved = None /\
   coordinate_frame (final unmoved) = Some ABSOLUTE /\
   coordinate_frame (final unmoved) <> Some LOCAL).
Proof.
  vm_compute. repeat split; intro H; discriminate H.
Qed.

(** C1, amended.  The frame is ABSOLUTE when [_has_relative_position] is
    set and [use_parent_modelview] is off, and LOCAL otherwise.
    (1) After [__init__] it is LOCAL.
    (2) The attach-time walk makes it ABSOLUTE exactly when the widget's
        position differs from its window position or the walk reaches a
        widget with screen events (or the flag was set already).
    (3) A pre-enter or pre-leave event, with a transition reference
        recorded, makes it ABSOLUTE for a slide or card transition and
        LOCAL for any other kind.
    (4) With no transition reference recorded the event changes nothing.
    (5) An enter or leave event switches [use_parent_modelview] off, so the
        frame of a widget with relative position becomes ABSOLUTE.
    (6) [on_pos] places the quad from the window position in the ABSOLUTE
        frame and from the parent-local position in the LOCAL frame, and
        keeps the frame. *)
Theorem coordinate_frame_transitions :
  (forall w : Widget,
     _has_relative_position w = false ->
     exists w', __init__ w = Ok tt w' /\ coordinate_frame w' = Some LOCAL)
  /\
  (forall (world : World) (w : Widget) (c : RenderContext),
     context w = Some c -> use_parent_modelview c = false ->
     exists w', check_for_relative_behavior world w = Ok tt w' /\
       coordinate_frame w'
       = Some (if _has_relative_position w
                  || negb (vec2_eqb (pos w) (window_pos w))
                  || lineage_finds_screen world
               then ABSOLUTE else LOCAL))
  /\
  (forall (world : World) (ev : screen_event) (w : Widget)
          (c : RenderContext) (o : obj_id),
     ev = on_pre_enter \/ ev = on_pre_leave ->
     screen_events_bound w = true -> _has_relative_position w = true ->
     context w = Some c -> _transition_ref w = Some o ->
     exists w', dispatch_screen_event world ev w = Ok tt w' /\
       coordinate_frame w'
       = Some (if contains "SlideTransition" (transition_str world o)
                  || contains "CardTransition" (transition_str world o)
               then ABSOLUTE else LOCAL))
  /\
  (forall (world : World) (ev : screen_event) (w : Widget),
     ev = on_pre_enter \/ ev = on_pre_leave ->
     _transition_ref w = None ->
     dispatch_screen_event world ev w = Ok tt w)
  /\
  (forall (world : World) (ev : screen_event) (w : Widget)
          (c : RenderContext),
     ev = on_enter \/ ev = on_leave ->
     screen_events_bound w = true -> _has_relative_position w = true ->
     context w = Some c ->
     exists w', dispatch_screen_event world ev w = Ok tt w' /\
       coordinate_frame w' = Some ABSOLUTE)
  /\
  (forall (w : Widget) (c : RenderContext) (r : RoundedRectangle)
          (f : frame),
     context w = Some c -> rect w = Some r -> coordinate_frame w = Some f ->
     exists w' r', on_pos w = Ok tt w' /\ rect w' = Some r' /\
       rect_pos r'
       = (fst (frame_pos f w) - ((fst (rect_size r) - fst (size w)) / 2)
            - fst (shadow_offset w),
          snd (frame_pos f w) - ((snd (rect_size r) - snd (size w)) / 2)
            - snd (shadow_offset w)) /\
       coordinate_frame w' = Some f).
Proof.
  split; [|split; [|split; [|split; [|split]]]].
  - intros w Hh. destruct w; cbn [_has_relative_position] in Hh; subst.
    py_run. eexists; split; reflexivity.
  - intros world w c Hc Hu.
    destruct (check_for_relative_behavior_effect world w)
      as (w' & Hrun & Hc' & Hh').
    exists w'. split; [exact Hrun|].
    unfold coordinate_frame. rewrite Hc', Hc, Hh', Hu. unfold frame_of.
    now rewrite andb_true_r.
  - intros world ev w c o Hev Hb Hh Hc Ht.
    destruct w as [p s op dis wp el sr soft off sc tref hrp el' sc' ctx rc
                     clk seb wdb].
    cbn [screen_events_bound _has_relative_position context _transition_ref]
      in Hb, Hh, Hc, Ht. subst.
    destruct c as [upm us fs].
    destruct Hev as [-> | ->]; py_run;
      destruct (contains "SlideTransition" (transition_str world o)),
               (contains "CardTransition" (transition_str world o));
      py_run; (eexists; split; reflexivity).
  - intros world ev w Hev Ht.
    destruct w as [p s op dis wp el sr soft off sc tref hrp el' sc' ctx rc
                     clk seb wdb].
    cbn [_transition_ref] in Ht. subst.
    destruct Hev as [-> | ->], seb; reflexivity.
  - intros world ev w c Hev Hb Hh Hc.
    destruct w as [p s op dis wp el sr soft off sc tref hrp el' sc' ctx rc
                     clk seb wdb].
    cbn [screen_events_bound _has_relative_position context] in Hb, Hh, Hc.
    subst. destruct c as [upm us fs].
    destruct Hev as [-> | ->], rc as [r|]; py_run;
      (eexists; split; reflexivity).
  - intros w c r f Hc Hr Hf.
    destruct (on_pos_rect w c r Hc Hr) as (w' & Hrun & Hrect & Hh & Hu).
    unfold coordinate_frame in Hf. rewrite Hc in Hf. injection Hf as <-.
    eexists w', _. split; [exact Hrun|]. split; [exact Hrect|].
    split; [reflexivity|].
    unfold coordinate_frame. rewrite Hh.
    destruct (context w') as [c'|]; [|discriminate Hu].
    cbn in Hu. injection Hu as ->. reflexivity.
Qed.

(** The six rules on a widget attached inside a screen. *)
Lemma coordinate_frame_transitions_witness :
  (exists w', __init__ Scenario.fresh = Ok tt w' /\
              coordinate_frame w' = Some LOCAL) /\
  (exists w', check_for_relative_behavior Scenario.fade_world
                (final (__init__ Scenario.fresh)) = Ok tt w' /\
              coordinate_frame w' = Some ABSOLUTE) /\
  (exists w', dispatch_screen_event Scenario.slide_world on_pre_enter
                (Scenario.attached Scenario.slide_world) = Ok tt w' /\
              coordinate_frame w' = Some ABSOLUTE) /\
  (exists w', dispatch_screen_event Scenario.fade_world on_pre_leave
                (Scenario.attached Scenario.fade_world) = Ok tt w' /\
              coordinate_frame w' = Some LOCAL) /\
  dispatch_screen_event Scenario.orphan_world on_pre_enter
    (Scenario.attached Scenario.orphan_world)
  = Ok tt (Scenario.attached Scenario.orphan_world) /\
  (exists w', dispatch_screen_event Scenario.fade_world on_leave
                (Scenario.attached Scenario.fade_world) = Ok tt w' /\
              coordinate_frame w' = Some ABSOLUTE) /\
  (exists w' r', on_pos (Scenario.attached Scenario.fade_world)
                 = Ok tt w' /\ rect w' = Some r' /\
                 coordinate_frame w' = Some ABSOLUTE).
Proof.
  destruct coordinate_frame_transitions
    as (Hinit & Hwalk & Hpre & Hnone & Hpost & Hpos).
  split; [apply Hinit; reflexivity|].
  split; [eapply (Hwalk Scenario.fade_world); vm_compute; reflexivity|].
  split; [eapply (Hpre Scenario.slide_world on_pre_enter); 
          [left; reflexivity | vm_compute; reflexivity ..]|].
  split; [eapply (Hpre Scenario.fade_world on_pre_leave);
          [right; reflexivity | vm_compute; reflexivity ..]|].
  split; [apply Hnone; [left; reflexivity | vm_compute; reflexivity]|].
  split; [eapply (Hpost Scenario.fade_world on_leave);
          [right; reflexivity | vm_compute; reflexivity ..]|].
  edestruct (Hpos (Scenario.attached Scenario.fade_world))
    as (w' & r' & Hrun & Hrect & _ & Hframe);
    [vm_compute; reflexivity ..|].
  exists w', r'. split; [exact Hrun|]. split; [exact Hrect|]. exact Hframe.
Defined.

(** *** Disabling and enabling *)



(** *** Updates before initialisation *)

(** The deferred radius, softness and elevation updates and the position
    and size handlers leave a widget without render target as it is. *)
Lemma guarded_handlers_drop_update (world : World) (w : Widget) :
  context w = None -> rect w = None ->
  (forall v, run_callback world (cb_on_shadow_radius v) w = Ok tt w) /\
  (forall v, run_callback world (cb_on_shadow_softness v) w = Ok tt w) /\
  (forall v, run_callback world (cb_on_elevation v) w = Ok tt w) /\
  on_pos w = Ok tt w /\
  on_size w = Ok tt w.
Proof.
  intros Hc Hr. open_widget w Hc Hr.
  repeat split; intros; reflexivity.
Qed.

(** C8, as stated, fails: a shadow radius assigned before [__init__] has
    created the render target is not dropped.  The handler queues its
    closure, so the state changes, and the closure, run by the clock
    after [__init__], writes the radius to the uniform. *)
Lemma early_update_is_applied :
  let w := Scenario.fresh in
  let handled := assign_shadow_radius [4; 4; 4; 4] w in
  let run := (assign_shadow_radius [4; 4; 4; 4] ;; __init__ ;;
              tick Scenario.fade_world) w in
  context w = None /\ rect w = None /\ clock w = [] /\
  raised handled = None /\
  clock (final handled) = [cb_on_shadow_radius [4; 4; 4; 4]] /\
  final handled <> set_shadow_radius [4; 4; 4; 4] w /\
  raised run = None /\
  match context (final run) with
  | Some c => uniforms c !! "shadow_radius" = Some (UList [4; 4; 4; 4])
  | None => False
  end.
Proof.
  vm_compute. repeat split. intro H. discriminate H.
Qed.

(** C8, amended: while the widget has neither [context] nor [rect], the
    position and size handlers are no-ops: no error, no state change.  The
    shadow colour, radius, softness and elevation handlers raise nothing
    and change nothing but the clock queue, to which they add their
    closure; the update is not dropped: once [__init__] has created the
    render target, the clock runs the closure, which writes the colour,
    radius or softness to its uniform, or sets the effective elevation. *)
Theorem early_updates_are_deferred (world : World) (w : Widget) :
  context w = None -> rect w = None -> clock w = [] ->
  on_pos w = Ok tt w /\
  on_size w = Ok tt w /\
  (forall v, on_shadow_color v w
             = Ok tt (set_clock [cb_on_shadow_color v] w)) /\
  (forall v, on_shadow_radius v w
             = Ok tt (set_clock [cb_on_shadow_radius v] w)) /\
  (forall v, on_shadow_softness v w
             = Ok tt (set_clock [cb_on_shadow_softness v] w)) /\
  (forall v, on_elevation v w
             = Ok tt (set_clock [cb_on_elevation v] w)) /\
  (forall v, exists w' c',
     (on_shadow_color v ;; __init__ ;; tick world) w = Ok tt w' /\
     context w' = Some c' /\
     _shadow_color w'
       = removelast v ++ [if negb (disabled w) then opacity w else 0] /\
     uniforms c' !! "shadow_color" = Some (UList (_shadow_color w'))) /\
  (forall v, exists w' c',
     (on_shadow_radius v ;; __init__ ;; tick world) w = Ok tt w' /\
     context w' = Some c' /\
     uniforms c' !! "shadow_radius" = Some (UList v)) /\
  (forall v, exists w' c',
     (on_shadow_softness v ;; __init__ ;; tick world) w = Ok tt w' /\
     context w' = Some c' /\
     uniforms c' !! "shadow_softness" = Some (UFloat v)) /\
  (forall v, exists w',
     (on_elevation v ;; __init__ ;; tick world) w = Ok tt w' /\
     _elevation w'
       = (if Qle_bool v 0 || disabled w then - elevation w
          else elevation w)).
Proof.
  intros Hc Hr Hq. open_widget w Hc Hr. cbn [clock] in Hq. subst clk.
  repeat apply conj; try reflexivity; intros v;
    unfold tick, run_callback; py_run; cbn [app]; py_run.
  - eexists _, _. split; [reflexivity|]. split; [reflexivity|].
    split; [reflexivity|]. apply lookup_insert_eq.
  - eexists _, _. split; [reflexivity|]. split; [reflexivity|].
    apply lookup_insert_eq.
  - eexists _, _. split; [reflexivity|]. split; [reflexivity|].
    apply lookup_insert_eq.
  - destruct (Qle_bool v 0), dis, hrp; py_run;
      (eexists; split; reflexivity).
Qed.

(** The class-default widget before [__init__]: a softness handed to the
    handler reaches the uniform after [__init__] and one clock step. *)
Lemma early_updates_are_deferred_witness :
  exists w' c',
    (on_shadow_softness 24 ;; __init__ ;; tick Scenario.fade_world)
      Scenario.fresh = Ok tt w' /\
    context w' = Some c' /\
    uniforms c' !! "shadow_softness" = Some (UFloat 24).
Proof.
  edestruct (early_updates_are_deferred Scenario.fade_world Scenario.fresh)
    as (_ & _ & _ & _ & _ & _ & _ & _ & Hsoft & _); [reflexivity ..|].
  exact (Hsoft 24).
Defined.

(** *** The bound on elevation *)

(** C9: assigning a negative value to [elevation] raises nothing and the
    stored elevation is 0 afterwards. *)
Theorem negative_elevation_is_clamped (v : Q) (w : Widget) :
  v < 0 ->
  exists w', assign_elevation v w = Ok tt w' /\ elevation w' == 0.
Proof.
  intros Hv. unfold assign_elevation, BoundedNumericProperty_validate,
    elevation_min, elevation_errorvalue.
  assert (Hb : Qle_bool 0 v = false).
  { destruct (Qle_bool 0 v) eqn:E; [|reflexivity].
    apply Qle_bool_iff in E. lra. }
  cbv beta iota zeta delta [bind ret gets modify]. rewrite Hb.
  destruct (Qeq_bool (elevation w) 0) eqn:E.
  - eexists; split; [reflexivity|]. now apply Qeq_bool_iff.
  - eexists; split; [reflexivity|]. destruct w; reflexivity.
Qed.

(** Assigning -3 to a widget of elevation 4. *)
Lemma negative_elevation_is_clamped_witness :
  exists w', assign_elevation (-3) (Scenario.raised_to 4 Scenario.fade_world)
               = Ok tt w' /\ elevation w' == 0.
Proof.
  apply (negative_elevation_is_clamped (-3)). reflexivity.
Defined.

End ElevationTheory.

(** ** The shadow quad in floating point *)

Module FloatElevationTheory.

Import Binary FloatElevation.
Local Open Scope py_scope.

(** Runs a method on a widget whose fields are explicit; the float
    operations are left as they are. *)
Ltac float_run :=
  cbv beta iota zeta delta
    [bind ret raise gets modify final raised
     get_context get_rect context_setitem schedule_once update_resolution
     on_shadow_color on_pos on_size hide_elevation on_disabled
     assign_disabled deferred_on_elevation __init__ stored
     set_disabled set_elevation set_shadow_offset
     set__elevation set__shadow_color set_context set_rect set_clock
     pos size opacity disabled window_pos elevation shadow_softness
     shadow_offset shadow_color _has_relative_position _elevation
     _shadow_color context rect clock
     rect_pos rect_size use_parent_modelview uniforms
     fst snd negb orb andb Bool.eqb].

Ltac open_float_widget w Hc Hr :=
  destruct w as [p s op dis wp el soft off sc hrp el' sc' ctx rc clk];
  cbn [context rect] in Hc, Hr; subst.

(** Subtracting the float 0.0 changes nothing, whatever the float. *)
Lemma fsub_zero (b : float) : fsub b zero = b.
Proof. destruct b as [[]|[]| |[] m e]; reflexivity. Qed.

(** C5, as stated, fails on the code: on a 100 x 50 widget at (10, 20)
    whose quad has the host size, the quad position under the offset
    (0.1, 0.2) and the one under a zero offset do not differ by
    (-0.1, -0.2), neither as the floats they are subtracted to nor as the
    exact numbers they stand for. *)
Lemma offset_shift_is_rounded :
  let w := FloatScenario.started in
  let x := decimal 1 1 in
  let y := decimal 2 1 in
  let run_a := on_pos (set_shadow_offset (x, y) w) in
  let run_b := on_pos (set_shadow_offset (zero, zero) w) in
  raised run_a = None /\ raised run_b = None /\
  match rect (final run_a), rect (final run_b) with
  | Some ra, Some rb =>
      rect_size ra = rect_size rb /\
      fsub (fst (rect_pos ra)) (fst (rect_pos rb)) <> fopp x /\
      fsub (snd (rect_pos ra)) (snd (rect_pos rb)) <> fopp y /\
      match F2Q (fst (rect_pos ra)), F2Q (fst (rect_pos rb)), F2Q x with
      | Some a, Some b, Some q => ~ (a - b == - q)%Q
      | _, _, _ => False
      end /\
      match F2Q (snd (rect_pos ra)), F2Q (snd (rect_pos rb)), F2Q y with
      | Some a, Some b, Some q => ~ (a - b == - q)%Q
      | _, _, _ => False
      end
  | _, _ => False
  end.
Proof.
  vm_compute. repeat split; intro H; discriminate H.
Qed.

(** C5, amended: with the host position, the host size and the quad size
    fixed, let [b] be the float [p - (quad_size - host_size) / 2] of an
    axis, [p] being the host position of the current coordinate frame.
    Under a zero offset the quad position is [b] rounded to binary32;
    under [shadow_offset = (x, y)] it is [b - x] (resp. [b - y]), one float
    subtraction, rounded to binary32.  The quad size is the same in both
    runs. *)
Theorem offset_enters_by_one_subtraction (w : Widget) (c : RenderContext)
  (r : RoundedRectangle) (x y : float) :
  context w = Some c -> rect w = Some r ->
  let p := host_position w c in
  let b_x :=
    fsub (fst p) (fdiv (fsub (fst (rect_size r)) (fst (size w))) two) in
  let b_y :=
    fsub (snd p) (fdiv (fsub (snd (rect_size r)) (snd (size w))) two) in
  exists wa wb ra rb,
    on_pos (set_shadow_offset (x, y) w) = Ok tt wa /\ rect wa = Some ra /\
    on_pos (set_shadow_offset (zero, zero) w) = Ok tt wb /\
    rect wb = Some rb /\
    rect_size ra = rect_size r /\ rect_size rb = rect_size r /\
    rect_pos rb = (single b_x, single b_y) /\
    rect_pos ra = (single (fsub b_x x), single (fsub b_y y)).
Proof.
  intros Hc Hr. open_float_widget w Hc Hr.
  destruct c as [upm us]. unfold host_position.
  destruct hrp, upm; float_run;
    (eexists _, _, _, _;
     split; [reflexivity|]; split; [reflexivity|];
     split; [reflexivity|]; split; [reflexivity|];
     split; [reflexivity|]; split; [reflexivity|]);
    float_run; rewrite !fsub_zero; split; reflexivity.
Qed.

(** The offset (0.1, 0.2) on the started widget: the quad lands on the
    binary32 roundings of 10 - 0.1 and 20 - 0.2. *)
Lemma offset_enters_by_one_subtraction_witness :
  exists wa ra,
    on_pos (set_shadow_offset (decimal 1 1, decimal 2 1)
              FloatScenario.started) = Ok tt wa /\
    rect wa = Some ra /\
    rect_pos ra = (single (fsub (of_Z 10) (decimal 1 1)),
                   single (fsub (of_Z 20) (decimal 2 1))).
Proof.
  edestruct (offset_enters_by_one_subtraction FloatScenario.started)
    with (x := decimal 1 1) (y := decimal 2 1)
    as (wa & wb & ra & rb & Ha & Hra & _ & _ & _ & _ & _ & Hpos);
    [vm_compute; reflexivity ..|].
  exists wa, ra. split; [exact Ha|]. split; [exact Hra|].
  rewrite Hpos. vm_compute. reflexivity.
Defined.

(** C3, amended: after a size change the quad size is, in both axes, the
    float [host_size + e * softness / 2] rounded to binary32, [e] being the
    effective elevation [_elevation].  Once the elevation update has run,
    [e] is the stored elevation on an enabled widget of positive
    elevation, and the negated stored elevation otherwise; disabling an
    enabled widget makes it the negated stored elevation. *)
Theorem quad_size_from_effective_elevation (w : Widget) (c : RenderContext)
  (r : RoundedRectangle) :
  context w = Some c -> rect w = Some r ->
  let grown (e : float) :=
    (single (fadd (fst (size w)) (fdiv (fmul e (shadow_softness w)) two)),
     single (fadd (snd (size w)) (fdiv (fmul e (shadow_softness w)) two))) in
  (exists w' r', on_size w = Ok tt w' /\ rect w' = Some r' /\
     rect_size r' = grown (_elevation w))
  /\
  (exists w' r',
     (deferred_on_elevation (elevation w) ;; on_size) w = Ok tt w' /\
     rect w' = Some r' /\
     rect_size r' = grown (if fleb (elevation w) (of_Z 0) || disabled w
                           then fopp (elevation w) else elevation w))
  /\
  (disabled w = false ->
   exists w' r',
     (assign_disabled true ;; on_size) w = Ok tt w' /\
     rect w' = Some r' /\
     rect_size r' = grown (fopp (elevation w))).
Proof.
  intros Hc Hr. open_float_widget w Hc Hr.
  destruct c as [upm us]. split; [|split].
  - float_run. eexists _, _. split; [reflexivity|]. split; reflexivity.
  - float_run.
    destruct (fleb el (of_Z 0)), dis, hrp, upm; float_run;
      (eexists _, _; split; [reflexivity|]; split; reflexivity).
  - intros Hd. cbn [disabled] in Hd. subst dis. float_run.
    destruct hrp, upm; float_run;
      (eexists _, _; split; [reflexivity|]; split; reflexivity).
Qed.

(** The enabled widget of elevation 0.1, softness 12 and size (100, 50):
    the quad is 13185843 / 131072 = 100.59999847412109375 wide, the
    binary32 number next to 100.6. *)
Lemma quad_size_from_effective_elevation_witness :
  exists w' r',
    (deferred_on_elevation (decimal 1 1) ;; on_size) FloatScenario.lifted
    = Ok tt w' /\
    rect w' = Some r' /\
    exists q, F2Q (fst (rect_size r')) = Some q /\
              (q == 13185843 # 131072)%Q.
Proof.
  edestruct (quad_size_from_effective_elevation FloatScenario.lifted)
    as (_ & (w' & r' & Hrun & Hrect & Hsize) & _);
    [vm_compute; reflexivity ..|].
  exists w', r'. split; [exact Hrun|]. split; [exact Hrect|].
  rewrite Hsize. eexists. split; vm_compute; reflexivity.
Defined.

End FloatElevationTheory.

(** ** Properties of the chip *)

Module ChipTheory.

Import Chip.
Local Open Scope Q_scope.
Local Open Scope py_scope.

Ltac chip_run :=
  cbv beta iota zeta delta
    [bind ret raise gets modify assign_active on_active do_animation_check
     start on_long_touch on_touch_down set_active set_state set_animations
     pos size icon_left active state animations Bool.eqb negb].

(** C6: marking a chip ([active] from false to true) starts exactly the
    pair of animations towards background alpha 0.4 on the left-icon box
    and scale 1 on the check icon; unmarking it starts exactly the pair
    towards alpha 0 and scale 0; every one of them lasts 0.1 s on the
    [out_sine] curve; a long touch on a chip without left icon changes
    nothing. *)
Theorem active_toggle_animations :
  (forall c : MDChip,
     active c = false ->
     exists c', assign_active true c = Ok tt c' /\
       active c' = true /\ icon_left c' = icon_left c /\
       animations c'
       = animations c ++
         [("icon_left_box"%string,
           mkAnimation [("md_bg_color"%string, Rgba 0 0 0 0.4)]
                       "out_sine" 0.1);
          ("check_icon"%string,
           mkAnimation [("scale_value_x"%string, Scalar 1);
                        ("scale_value_y"%string, Scalar 1);
                        ("scale_value_z"%string, Scalar 1)]
                       "out_sine" 0.1)])
  /\
  (forall c : MDChip,
     active c = true ->
     exists c', assign_active false c = Ok tt c' /\
       active c' = false /\ icon_left c' = icon_left c /\
       animations c'
       = animations c ++
         [("icon_left_box"%string,
           mkAnimation [("md_bg_color"%string, Rgba 0 0 0 0)]
                       "out_sine" 0.1);
          ("check_icon"%string,
           mkAnimation [("scale_value_x"%string, Scalar 0);
                        ("scale_value_y"%string, Scalar 0);
                        ("scale_value_z"%string, Scalar 0)]
                       "out_sine" 0.1)])
  /\
  (forall c : MDChip,
     icon_left c = EmptyString -> on_long_touch c = Ok tt c).
Proof.
  split; [|split].
  - intros [p s il a st an] Ha. cbn [active] in Ha. subst a.
    chip_run. eexists; split; [reflexivity|]. chip_run.
    rewrite <- app_assoc. repeat split.
  - intros [p s il a st an] Ha. cbn [active] in Ha. subst a.
    chip_run. eexists; split; [reflexivity|]. chip_run.
    rewrite <- app_assoc. repeat split.
  - intros [p s il a st an] Hi. cbn [icon_left] in Hi. subst il.
    reflexivity.
Qed.

(** Marking, unmarking and long-touching concrete chips. *)
Lemma active_toggle_animations_witness :
  (exists c', assign_active true (Scenario.chip false) = Ok tt c' /\
              active c' = true /\ length (animations c') = 2%nat) /\
  (exists c', assign_active false (Scenario.chip true) = Ok tt c' /\
              active c' = false /\ length (animations c') = 2%nat) /\
  on_long_touch Scenario.plain_chip = Ok tt Scenario.plain_chip.
Proof.
  destruct active_toggle_animations as (Hon & Hoff & Hlong).
  split; [|split].
  - destruct (Hon (Scenario.chip false)) as (c' & Hrun & Ha & _ & Han);
      [reflexivity|].
    exists c'. split; [exact Hrun|]. split; [exact Ha|].
    rewrite Han. reflexivity.
  - destruct (Hoff (Scenario.chip true)) as (c' & Hrun & Ha & _ & Han);
      [reflexivity|].
    exists c'. split; [exact Hrun|]. split; [exact Ha|].
    rewrite Han. reflexivity.
  - apply Hlong. reflexivity.
Defined.

(** C7: a touch that collides with a marked chip unmarks it first: the
    inherited touch handler runs on the state that [self.active = False]
    produced, in which [active] is false. *)
Theorem touch_unmarks_before_super
  (super_on_touch_down : Touch -> M MDChip (option bool))
  (touch : Touch) (c : MDChip) :
  collide_point c (touch_pos touch) = true ->
  active c = true ->
  exists c', assign_active false c = Ok tt c' /\
    active c' = false /\
    on_touch_down super_on_touch_down touch c
    = super_on_touch_down touch c'.
Proof.
  intros Hcol Ha. destruct c as [p s il a st an].
  cbn [active] in Ha. subst a.
  unfold on_touch_down. cbv beta iota zeta delta [bind gets].
  rewrite Hcol. chip_run.
  eexists; split; [reflexivity|]. split; reflexivity.
Qed.

(** A touch inside a marked chip whose inherited handler presses the
    button. *)
Lemma touch_unmarks_before_super_witness :
  exists c', assign_active false (Scenario.chip true) = Ok tt c' /\
    active c' = false /\
    on_touch_down press_button Scenario.touch_inside (Scenario.chip true)
    = press_button Scenario.touch_inside c'.
Proof.
  apply (touch_unmarks_before_super press_button Scenario.touch_inside
           (Scenario.chip true)); reflexivity.
Defined.

(** C10: a touch that does not collide with the chip returns None and
    leaves the chip as it was, whatever the inherited handler would have
    done: the handler is not called. *)
Theorem touch_outside_is_ignored
  (super_on_touch_down : Touch -> M MDChip (option bool))
  (touch : Touch) (c : MDChip) :
  collide_point c (touch_pos touch) = false ->
  on_touch_down super_on_touch_down touch c = Ok None c.
Proof.
  intros Hcol. unfold on_touch_down.
  cbv beta iota zeta delta [bind gets ret]. rewrite Hcol. reflexivity.
Qed.

(** A touch at (200, 16), outside the 80 x 32 chip. *)
Lemma touch_outside_is_ignored_witness :
  on_touch_down press_button Scenario.touch_outside (Scenario.chip true)
  = Ok None (Scenario.chip true).
Proof.
  apply (touch_outside_is_ignored press_button Scenario.touch_outside
           (Scenario.chip true)). reflexivity.
Defined.

End ChipTheory.

(** ** Further properties of the elevation behaviour *)

Module ElevationExtra.

Import Elevation ElevationTheory.
Local Open Scope Q_scope.
Local Open Scope py_scope.

(** Decides a lookup in a uniform map built from inserts. *)
Ltac uniform_lookup :=
  rewrite ?lookup_insert; repeat case_decide; try reflexivity; congruence.

(** Two uniform maps are equal when every lookup agrees. *)
Ltac uniforms_eq := apply map_eq; intros k; uniform_lookup.

(** *** Geometry of the quad *)

(** Running [on_pos] a second time changes nothing: the quad position and
    the uniforms are recomputed from the host, never patched. *)
Theorem on_pos_idempotent (w : Widget) (c : RenderContext)
  (r : RoundedRectangle) :
  context w = Some c -> rect w = Some r ->
  (on_pos ;; on_pos) w = on_pos w.
Proof.
  intros Hc Hr. open_widget w Hc Hr. destruct c as [upm us fs].
  destruct hrp, upm; py_run; do 4 f_equal; uniforms_eq.
Qed.

Lemma on_pos_idempotent_witness :
  (on_pos ;; on_pos) Scenario.lifted
  = on_pos Scenario.lifted.
Proof.
  eapply on_pos_idempotent; vm_compute; reflexivity.
Defined.

(** Running [on_size] a second time changes nothing. *)
Theorem on_size_idempotent (w : Widget) (c : RenderContext)
  (r : RoundedRectangle) :
  context w = Some c -> rect w = Some r ->
  (on_size ;; on_size) w = on_size w.
Proof.
  intros Hc Hr. open_widget w Hc Hr. destruct c as [upm us fs].
  py_run; do 4 f_equal; uniforms_eq.
Qed.

Lemma on_size_idempotent_witness :
  (on_size ;; on_size) Scenario.lifted
  = on_size Scenario.lifted.
Proof.
  eapply on_size_idempotent; vm_compute; reflexivity.
Defined.

(** After [on_pos] the uniforms [pos], [mouse] and [resolution] describe
    the quad just placed, after [on_size] the uniforms [size], [mouse] and
    [resolution] describe the quad just sized; no other uniform changes. *)
Theorem quad_uniforms_follow_rect (w : Widget) (c : RenderContext)
  (r : RoundedRectangle) :
  context w = Some c -> rect w = Some r ->
  (exists w' c' r',
     on_pos w = Ok tt w' /\ context w' = Some c' /\ rect w' = Some r' /\
     uniforms c' !! "pos"
       = Some (UList [fst (rect_pos r'); snd (rect_pos r')]) /\
     uniforms c' !! "mouse" = Some (UList [fst (rect_pos r'); 0; 0; 0]) /\
     uniforms c' !! "resolution"
       = Some (UList [fst (rect_size r'); snd (rect_size r');
                      fst (rect_pos r'); snd (rect_pos r')]) /\
     (forall k, k <> "pos"%string -> k <> "mouse"%string ->
                k <> "resolution"%string ->
                uniforms c' !! k = uniforms c !! k))
  /\
  (exists w' c' r',
     on_size w = Ok tt w' /\ context w' = Some c' /\ rect w' = Some r' /\
     uniforms c' !! "size"
       = Some (UList [fst (rect_size r'); snd (rect_size r')]) /\
     uniforms c' !! "mouse" = Some (UList [fst (rect_pos r'); 0; 0; 0]) /\
     uniforms c' !! "resolution"
       = Some (UList [fst (rect_size r'); snd (rect_size r');
                      fst (rect_pos r'); snd (rect_pos r')]) /\
     (forall k, k <> "size"%string -> k <> "mouse"%string ->
                k <> "resolution"%string ->
                uniforms c' !! k = uniforms c !! k)).
Proof.
  intros Hc Hr. open_widget w Hc Hr. destruct c as [upm us fs]. split.
  - destruct hrp, upm; py_run;
      (eexists _, _, _; split; [reflexivity|]; split; [reflexivity|];
       split; [reflexivity|]); py_run;
      (repeat split; [| | | intros k H1 H2 H3]); uniform_lookup.
  - py_run;
      (eexists _, _, _; split; [reflexivity|]; split; [reflexivity|];
       split; [reflexivity|]); py_run;
      (repeat split; [| | | intros k H1 H2 H3]); uniform_lookup.
Qed.

Lemma quad_uniforms_follow_rect_witness :
  exists w' c' r',
    on_pos Scenario.lifted = Ok tt w' /\
    context w' = Some c' /\ rect w' = Some r' /\
    uniforms c' !! "pos"
    = Some (UList [fst (rect_pos r'); snd (rect_pos r')]).
Proof.
  edestruct (quad_uniforms_follow_rect
               Scenario.lifted)
    as ((w' & c' & r' & Hrun & Hc & Hr & Hpos & _) & _);
    [vm_compute; reflexivity ..|].
  exists w', c', r'. repeat (split; [assumption|]). exact Hpos.
Defined.

(** *** The shader source *)

Ltac py_setup :=
  cbv beta iota zeta delta
    [set_shader_string get_shader_string read_shader_files after_init
     run_callback tick ticks];
  py_run.

(** With the three files present, [get_shader_string] returns their
    texts in the order header, elevation, main, each followed by two
    newlines, and leaves the widget as it is. *)
Theorem get_shader_string_concatenates (world : World) (w : Widget)
  (h e m : string) :
  glsl_file world "header.frag" = Some h ->
  glsl_file world "elevation.frag" = Some e ->
  glsl_file world "main.frag" = Some m ->
  get_shader_string world w
  = Ok (((h ++ newline ++ newline) ++ e ++ newline ++ newline)
          ++ m ++ newline ++ newline)%string w.
Proof.
  intros Hh He Hm. unfold get_shader_string. cbn [read_shader_files].
  rewrite Hh, He, Hm. reflexivity.
Qed.

Lemma get_shader_string_concatenates_witness :
  raised (get_shader_string Scenario.fade_world Scenario.fresh) = None.
Proof.
  rewrite (get_shader_string_concatenates Scenario.fade_world
             Scenario.fresh "header.frag" "elevation.frag" "main.frag");
    reflexivity.
Defined.

(** When a file is missing, [get_shader_string] raises OSError for the
    first missing one in that order and leaves the widget as it is. *)
Theorem get_shader_string_missing_file (world : World) (w : Widget) :
  glsl_file world "header.frag" = None
  \/ glsl_file world "elevation.frag" = None
  \/ glsl_file world "main.frag" = None ->
  exists name,
    get_shader_string world w = Raise (OSError name) w /\
    glsl_file world name = None /\
    (name = "header.frag"
     \/ name = "elevation.frag" /\ glsl_file world "header.frag" <> None
     \/ name = "main.frag" /\ glsl_file world "header.frag" <> None
        /\ glsl_file world "elevation.frag" <> None)%string.
Proof.
  intros H. unfold get_shader_string. cbn [read_shader_files].
  destruct (glsl_file world "header.frag") as [h|] eqn:Hh.
  - destruct (glsl_file world "elevation.frag") as [e|] eqn:He.
    + destruct (glsl_file world "main.frag") as [m|] eqn:Hm.
      * destruct H as [H | [H | H]]; discriminate H.
      * exists "main.frag"%string. repeat split; try assumption.
        right; right. repeat split; congruence.
    + exists "elevation.frag"%string. repeat split; try assumption.
      right; left. split; congruence.
  - exists "header.frag"%string. repeat split; try assumption. now left.
Qed.

Lemma get_shader_string_missing_file_witness :
  exists name,
    get_shader_string Scenario.broken_world Scenario.fresh
    = Raise (OSError name) Scenario.fresh.
Proof.
  destruct (get_shader_string_missing_file Scenario.broken_world
              Scenario.fresh) as (name & Hrun & _).
  - right; left. reflexivity.
  - exists name. exact Hrun.
Defined.

(** On an initialised widget with the three files present,
    [set_shader_string] writes the current radius, softness, colour (with
    the opacity as alpha) and quad position into the uniforms and loads
    the concatenated source; [use_parent_modelview] is kept. *)
Theorem set_shader_string_rereads (world : World) (w : Widget)
  (c : RenderContext) (r : RoundedRectangle) (h e m : string) :
  context w = Some c -> rect w = Some r ->
  glsl_file world "header.frag" = Some h ->
  glsl_file world "elevation.frag" = Some e ->
  glsl_file world "main.frag" = Some m ->
  exists w' c',
    set_shader_string world w = Ok tt w' /\
    context w' = Some c' /\ rect w' = Some r /\
    uniforms c' !! "shadow_radius" = Some (UList (shadow_radius w)) /\
    uniforms c' !! "shadow_softness" = Some (UFloat (shadow_softness w)) /\
    uniforms c' !! "shadow_color"
      = Some (UList (removelast (shadow_color w) ++ [opacity w])) /\
    uniforms c' !! "pos"
      = Some (UList [fst (rect_pos r); snd (rect_pos r)]) /\
    shader_fs c'
      = Some (((h ++ newline ++ newline) ++ e ++ newline ++ newline)
                ++ m ++ newline ++ newline)%string /\
    use_parent_modelview c' = use_parent_modelview c.
Proof.
  intros Hc Hr Hh He Hm. open_widget w Hc Hr. destruct c as [upm us fs].
  py_setup. rewrite Hh, He, Hm. py_run.
  eexists _, _. split; [reflexivity|]. split; [reflexivity|].
  split; [reflexivity|]. py_run.
  repeat split; uniform_lookup.
Qed.

Lemma set_shader_string_rereads_witness :
  exists w' c',
    set_shader_string Scenario.fade_world Scenario.started = Ok tt w' /\
    context w' = Some c' /\
    uniforms c' !! "shadow_softness" = Some (UFloat 12).
Proof.
  edestruct (set_shader_string_rereads Scenario.fade_world Scenario.started)
    as (w' & c' & Hrun & Hc & _ & _ & Hsoft & _); [reflexivity ..|].
  exists w', c'. split; [exact Hrun|]. split; [exact Hc|]. exact Hsoft.
Defined.

(** With a file missing, [set_shader_string] raises OSError for it after
    the uniforms have been written; the shader source is not replaced. *)
Theorem set_shader_string_missing_file (world : World) (w : Widget)
  (c : RenderContext) (r : RoundedRectangle) :
  context w = Some c -> rect w = Some r ->
  glsl_file world "header.frag" = None
  \/ glsl_file world "elevation.frag" = None
  \/ glsl_file world "main.frag" = None ->
  exists name w' c',
    set_shader_string world w = Raise (OSError name) w' /\
    glsl_file world name = None /\
    context w' = Some c' /\
    shader_fs c' = shader_fs c /\
    uniforms c' !! "shadow_radius" = Some (UList (shadow_radius w)).
Proof.
  intros Hc Hr H. open_widget w Hc Hr. destruct c as [upm us fs].
  py_setup.
  destruct (glsl_file world "header.frag") as [h|] eqn:Hh;
    [destruct (glsl_file world "elevation.frag") as [e|] eqn:He;
     [destruct (glsl_file world "main.frag") as [m|] eqn:Hm|]|].
  - destruct H as [H | [H | H]]; discriminate H.
  - exists "main.frag"%string. eexists _, _. split; [reflexivity|].
    split; [assumption|]. split; [reflexivity|]. split; [reflexivity|].
    cbn [uniforms]. uniform_lookup.
  - exists "elevation.frag"%string. eexists _, _. split; [reflexivity|].
    split; [assumption|]. split; [reflexivity|]. split; [reflexivity|].
    cbn [uniforms]. uniform_lookup.
  - exists "header.frag"%string. eexists _, _. split; [reflexivity|].
    split; [assumption|]. split; [reflexivity|]. split; [reflexivity|].
    cbn [uniforms]. uniform_lookup.
Qed.

Lemma set_shader_string_missing_file_witness :
  exists name w',
    set_shader_string Scenario.broken_world Scenario.started
    = Raise (OSError name) w'.
Proof.
  edestruct (set_shader_string_missing_file Scenario.broken_world
               Scenario.started) as (name & w' & c' & Hrun & _);
    [reflexivity | reflexivity | right; left; reflexivity |].
  exists name, w'. exact Hrun.
Defined.

(** *** The radius handler at the bounds *)

(** [on_radius] reads exactly the first four values: on a shorter list it
    raises IndexError and leaves the widget as it is, and whatever follows
    the fourth value is ignored. *)
Theorem on_radius_reads_four_values (w : Widget) :
  (forall value : list Q,
     (length value < 4)%nat -> on_radius value w = Raise IndexError w) /\
  (forall (a b c d : Q) (rest : list Q),
     on_radius (a :: b :: c :: d :: rest) w = on_radius [a; b; c; d] w).
Proof.
  split.
  - intros value H.
    destruct value as [|a [|b [|c [|d rest]]]]; try reflexivity.
    cbn [length] in H. lia.
  - reflexivity.
Qed.

Lemma on_radius_reads_four_values_witness :
  on_radius [1; 2; 3] Scenario.fresh = Raise IndexError Scenario.fresh.
Proof.
  apply (on_radius_reads_four_values Scenario.fresh). cbn. lia.
Defined.

(** *** The relative-position bookkeeping *)

Lemma final_bind {A B} (m : M Widget A) (k : A -> M Widget B) (w : Widget) :
  final (bind m k w)
  = match m w with
    | Ok a s => final (k a s)
    | Raise _ s => s
    end.
Proof. unfold bind. now destruct (m w). Qed.

Lemma keeps_bind {A B} (m : M Widget A) (k : A -> M Widget B) :
  keeps_bookkeeping m -> (forall a, keeps_bookkeeping (k a)) ->
  keeps_bookkeeping (bind m k).
Proof.
  intros Hm Hk w. rewrite final_bind. specialize (Hm w).
  destruct (m w) as [a s|e s]; cbn [final] in Hm.
  - now rewrite Hk.
  - exact Hm.
Qed.

Lemma keeps_ret {A} (a : A) : keeps_bookkeeping (ret a).
Proof. now intros w. Qed.

Lemma keeps_raise {A} (e : exn) : keeps_bookkeeping (@raise Widget A e).
Proof. now intros w. Qed.

Lemma keeps_gets {A} (f : Widget -> A) : keeps_bookkeeping (gets f).
Proof. now intros w. Qed.

Lemma keeps_modify (f : Widget -> Widget) :
  (forall w, bookkeeping (f w) = bookkeeping w) ->
  keeps_bookkeeping (modify f).
Proof. intros Hf w. apply Hf. Qed.

Lemma keeps_get_context : keeps_bookkeeping get_context.
Proof. intros w. unfold get_context. now destruct (context w). Qed.

Lemma keeps_get_rect : keeps_bookkeeping get_rect.
Proof. intros w. unfold get_rect. now destruct (rect w). Qed.

(** Splits a method along its binds and branches; what is left are the
    attribute writes, none of which touches the bookkeeping. *)
Ltac keeps :=
  repeat first
    [ apply keeps_ret | apply keeps_raise | apply keeps_gets
    | apply keeps_get_context | apply keeps_get_rect
    | match goal with H : _ |- _ => solve [apply H] end
    | apply keeps_modify; intros []; reflexivity
    | apply keeps_bind; [|intros ?]
    | match goal with
      | |- keeps_bookkeeping (if ?b then _ else _) => destruct b
      | |- keeps_bookkeeping (match ?x with _ => _ end) => destruct x
      | |- keeps_bookkeeping (let _ := _ in _) => cbv zeta
      end ].

Lemma keeps_context_setitem (name : string) (v : uniform) :
  keeps_bookkeeping (context_setitem name v).
Proof. unfold context_setitem. keeps. Qed.

Lemma keeps_set_use_parent_modelview (b : bool) :
  keeps_bookkeeping (set_use_parent_modelview b).
Proof. unfold set_use_parent_modelview. keeps. Qed.

Lemma keeps_schedule_once (cb : callback) :
  keeps_bookkeeping (schedule_once cb).
Proof. unfold schedule_once. keeps. Qed.

Lemma keeps_update_resolution : keeps_bookkeeping update_resolution.
Proof.
  pose proof keeps_context_setitem. unfold update_resolution. keeps.
Qed.

Lemma keeps_on_pos : keeps_bookkeeping on_pos.
Proof.
  pose proof keeps_context_setitem. pose proof keeps_update_resolution.
  unfold on_pos. keeps.
Qed.

Lemma keeps_on_size : keeps_bookkeeping on_size.
Proof.
  pose proof keeps_context_setitem. pose proof keeps_update_resolution.
  unfold on_size. keeps.
Qed.

Lemma keeps_hide_elevation (hide : bool) :
  keeps_bookkeeping (hide_elevation hide).
Proof.
  pose proof keeps_on_pos. pose proof keeps_on_size.
  pose proof keeps_schedule_once.
  unfold hide_elevation, on_shadow_color. keeps.
Qed.

Lemma keeps_on_disabled (value : bool) :
  keeps_bookkeeping (on_disabled value).
Proof.
  pose proof keeps_hide_elevation. unfold on_disabled. keeps.
Qed.

Lemma keeps_callbacks (world : World) (cb : callback) :
  cb <> cb_check_for_relative_behavior ->
  keeps_bookkeeping (run_callback world cb).
Proof.
  pose proof keeps_on_pos. pose proof keeps_hide_elevation.
  pose proof keeps_schedule_once. pose proof keeps_context_setitem.
  intros Hcb. destruct cb; try (now destruct Hcb); cbn [run_callback].
  - unfold after_init. keeps.
  - unfold set_shader_string, get_shader_string. cbn [read_shader_files].
    keeps.
  - unfold on_elevation. keeps.
  - unfold deferred_on_shadow_color. keeps.
  - unfold deferred_on_shadow_radius. keeps.
  - unfold deferred_on_shadow_softness. keeps.
  - unfold deferred_on_elevation. keeps.
Qed.

Lemma keeps_dispatch_screen_event (world : World) (ev : screen_event) :
  keeps_bookkeeping (dispatch_screen_event world ev).
Proof.
  pose proof keeps_on_pos. pose proof keeps_set_use_parent_modelview.
  unfold dispatch_screen_event, apply_correction, reset_correction,
    update_window_position.
  destruct ev; keeps.
Qed.

Lemma keeps_handlers :
  (forall v, keeps_bookkeeping (on_shadow_offset v)) /\
  (forall b, keeps_bookkeeping (assign_disabled b)) /\
  (forall v, keeps_bookkeeping (assign_shadow_offset v)) /\
  (forall v, keeps_bookkeeping (on_radius v)) /\
  (forall v, keeps_bookkeeping (assign_elevation v)) /\
  (forall v, keeps_bookkeeping (deferred_on_opacity v)) /\
  keeps_bookkeeping __init__.
Proof.
  pose proof keeps_on_pos. pose proof keeps_on_size.
  pose proof keeps_on_disabled.
  pose proof keeps_schedule_once. pose proof keeps_context_setitem.
  repeat apply conj; intros.
  - unfold on_shadow_offset. keeps.
  - unfold assign_disabled. keeps.
  - unfold assign_shadow_offset, on_shadow_offset. keeps.
  - unfold on_radius, on_radius_value, assign_shadow_radius,
      on_shadow_radius. keeps.
  - unfold assign_elevation, BoundedNumericProperty_validate,
      on_elevation. keeps.
  - unfold deferred_on_opacity. keeps.
  - unfold __init__. keeps.
Qed.

(** The attach-time walk, with what it does to each binding. *)

Lemma walk_ancestors_bookkeeping (parents : list Node) :
  forall (widget : Node) (w : Widget),
  exists w', walk_ancestors widget parents w = Ok tt w' /\
    _has_relative_position w'
      = _has_relative_position w || finds_screen widget parents /\
    screen_events_bound w'
      = screen_events_bound w || finds_screen widget parents /\
    window_on_draw_bound w' = window_on_draw_bound w /\
    (finds_screen widget parents = false -> w' = w).
Proof.
  induction parents as [|parent rest IH]; intros widget w;
    cbn [walk_ancestors finds_screen];
    destruct (has_on_pre_enter widget) eqn:E; cbn [orb].
  - destruct (header_panel widget) as [o|];
      [|destruct (manager widget) as [[m|]|]];
      (eexists; split; [reflexivity|]); destruct w; cbn;
      rewrite !orb_true_r; repeat split; discriminate.
  - exists w. rewrite !orb_false_r. repeat split.
  - destruct (header_panel widget) as [o|];
      [|destruct (manager widget) as [[m|]|]];
      (eexists; split; [reflexivity|]); destruct w; cbn;
      rewrite !orb_true_r; repeat split; discriminate.
  - destruct (negb (node_str widget =? node_str parent)%string);
      cbn [andb].
    + apply IH.
    + exists w. rewrite !orb_false_r. repeat split.
Qed.

Lemma check_for_relative_behavior_bookkeeping (world : World) (w : Widget) :
  exists w', check_for_relative_behavior world w = Ok tt w' /\
    _has_relative_position w'
      = _has_relative_position w
        || negb (vec2_eqb (pos w) (window_pos w))
        || lineage_finds_screen world /\
    screen_events_bound w'
      = screen_events_bound w || lineage_finds_screen world /\
    window_on_draw_bound w'
      = window_on_draw_bound w || _has_relative_position w' /\
    (_has_relative_position w = false ->
     vec2_eqb (pos w) (window_pos w) = true ->
     lineage_finds_screen world = false -> w' = w).
Proof.
  assert (Hfirst : exists w1,
             _has_relative_position w1
             = _has_relative_position w
               || negb (vec2_eqb (pos w) (window_pos w)) /\
             screen_events_bound w1 = screen_events_bound w /\
             window_on_draw_bound w1 = window_on_draw_bound w /\
             (vec2_eqb (pos w) (window_pos w) = true -> w1 = w) /\
             check_for_relative_behavior world w
             = (match lineage world with
                | self :: parents => walk_ancestors self parents
                | [] => ret tt
                end ;;
                hrp <- gets _has_relative_position ;;
                if hrp : bool then modify (set_window_on_draw_bound true)
                else ret tt) w1).
  { unfold check_for_relative_behavior.
    cbv beta iota zeta delta [bind ret gets modify].
    destruct (vec2_eqb (pos w) (window_pos w)); cbn [negb].
    - exists w. now rewrite orb_false_r.
    - exists (set__has_relative_position true w).
      destruct w; cbn. rewrite orb_true_r. repeat split. discriminate. }
  destruct Hfirst as (w1 & Hh1 & Hs1 & Hd1 & Hsame1 & ->).
  unfold lineage_finds_screen.
  assert (Hwalk : exists w2,
             match lineage world with
             | self :: parents => walk_ancestors self parents
             | [] => ret tt
             end w1 = Ok tt w2 /\
             _has_relative_position w2
             = _has_relative_position w1
               || match lineage world with
                  | self :: parents => finds_screen self parents
                  | [] => false
                  end /\
             screen_events_bound w2
             = screen_events_bound w1
               || match lineage world with
                  | self :: parents => finds_screen self parents
                  | [] => false
                  end /\
             window_on_draw_bound w2 = window_on_draw_bound w1 /\
             (match lineage world with
              | self :: parents => finds_screen self parents
              | [] => false
              end = false -> w2 = w1)).
  { destruct (lineage world) as [|self parents].
    - exists w1. now rewrite !orb_false_r.
    - apply walk_ancestors_bookkeeping. }
  destruct Hwalk as (w2 & Hrun & Hh2 & Hs2 & Hd2 & Hsame2).
  unfold bind at 1. rewrite Hrun.
  cbv beta iota zeta delta [bind ret gets modify].
  rewrite <- Hh1, <- Hs1, <- Hd1, <- Hh2, <- Hs2, <- Hd2.
  destruct (_has_relative_position w2) eqn:E.
  - eexists; split; [reflexivity|].
    assert (Hnot : _has_relative_position w = false ->
                   vec2_eqb (pos w) (window_pos w) = true ->
                   match lineage world with
                   | self :: parents => finds_screen self parents
                   | [] => false
                   end = false -> False).
    { intros Hw Hv Hf. rewrite Hsame2 in E by exact Hf.
      rewrite Hsame1 in E by exact Hv. congruence. }
    clear Hsame1 Hsame2 Hrun Hh1 Hs1 Hd1 Hh2 Hs2 Hd2.
    destruct w2; cbn in E |- *. subst. rewrite orb_true_r.
    repeat split. intros Hw Hv Hf. now destruct (Hnot Hw Hv Hf).
  - exists w2. rewrite E, orb_false_r. repeat split.
    intros Hw Hv Hf. rewrite Hsame2 by exact Hf. now apply Hsame1.
Qed.

(** For a widget whose position equals its window position and whose
    ancestor chain has no widget with screen events, the attach-time check
    changes nothing: no flag, no binding. *)
Theorem check_without_relatives_changes_nothing (world : World)
  (w : Widget) :
  _has_relative_position w = false ->
  vec2_eqb (pos w) (window_pos w) = true ->
  lineage_finds_screen world = false ->
  check_for_relative_behavior world w = Ok tt w.
Proof.
  intros Hh Hv Hf.
  destruct (check_for_relative_behavior_bookkeeping world w)
    as (w' & Hrun & _ & _ & _ & Hsame).
  rewrite Hrun. f_equal. now apply Hsame.
Qed.

Lemma check_without_relatives_changes_nothing_witness :
  check_for_relative_behavior Scenario.flat_world Scenario.fresh
  = Ok tt Scenario.fresh.
Proof.
  apply check_without_relatives_changes_nothing; reflexivity.
Defined.

(** The walk over a chain with headers: it stops at the first widget with
    screen events, binds them and sets the flag; there it raises when the
    header has no panel, and records the panel or the manager otherwise. *)
Lemma walk_lineage_effect (parents : list Lineage.Ancestor) :
  forall (widget : Lineage.Ancestor) (w : Widget),
  match Lineage.first_screen widget parents with
  | Some a =>
      match Lineage.ancestor_header a with
      | Lineage.header_without_panel =>
          Lineage.walk_ancestors widget parents w
          = Raise (AttributeError "panel")
              (set__has_relative_position true
                 (set_screen_events_bound true w))
      | _ =>
          exists t,
            Lineage.walk_ancestors widget parents w
            = Ok tt (set__transition_ref t
                       (set__has_relative_position true
                          (set_screen_events_bound true w)))
      end
  | None => Lineage.walk_ancestors widget parents w = Ok tt w
  end.
Proof.
  induction parents as [|parent rest IH]; intros widget w;
    cbn [Lineage.walk_ancestors Lineage.first_screen];
    destruct (Lineage.ancestor_on_pre_enter widget).
  - destruct (Lineage.ancestor_header widget) as [| |panel];
      [destruct (Lineage.ancestor_manager widget) as [[m|]|]| |];
      try reflexivity;
      first [ eexists; reflexivity
            | exists (_transition_ref w); destruct w; reflexivity ].
  - reflexivity.
  - destruct (Lineage.ancestor_header widget) as [| |panel];
      [destruct (Lineage.ancestor_manager widget) as [[m|]|]| |];
      try reflexivity;
      first [ eexists; reflexivity
            | exists (_transition_ref w); destruct w; reflexivity ].
  - destruct (negb (Lineage.ancestor_str widget
                    =? Lineage.ancestor_str parent)%string).
    + apply IH.
    + reflexivity.
Qed.

(** The first step of the check: the flag is set when the position differs
    from the window position. *)
Lemma lineage_check_unfold (chain : list Lineage.Ancestor) (w : Widget) :
  Lineage.check_for_relative_behavior chain w
  = (match chain with
     | self :: parents => Lineage.walk_ancestors self parents
     | [] => ret tt
     end ;;
     hrp <- gets _has_relative_position ;;
     if hrp : bool then modify (set_window_on_draw_bound true) else ret tt)
      (set__has_relative_position
         (_has_relative_position w
          || negb (vec2_eqb (pos w) (window_pos w))) w).
Proof.
  unfold Lineage.check_for_relative_behavior.
  cbv beta iota zeta delta [bind ret gets modify].
  destruct (vec2_eqb (pos w) (window_pos w)); cbn [negb].
  - rewrite orb_false_r. now destruct w.
  - rewrite orb_true_r. reflexivity.
Qed.

(** The attach-time check over a chain with headers.  When the walk stops
    at a widget whose header has no panel, the check raises AttributeError
    with the screen events bound and the flag set, and Window.on_draw is
    not bound by it.  Otherwise it returns: the flag is set iff it was set
    before, or the position differs from the window position, or the walk
    reaches a widget with screen events; the screen events are bound in
    the last case, and Window.on_draw is bound when the flag is set. *)
Theorem check_binds_or_raises_at_header (chain : list Lineage.Ancestor)
  (w : Widget) :
  if Lineage.stops_at_header_without_panel chain
  then
    exists w',
      Lineage.check_for_relative_behavior chain w
      = Raise (AttributeError "panel") w' /\
      _has_relative_position w' = true /\
      screen_events_bound w' = true /\
      _transition_ref w' = _transition_ref w /\
      window_on_draw_bound w' = window_on_draw_bound w
  else
    exists w',
      Lineage.check_for_relative_behavior chain w = Ok tt w' /\
      _has_relative_position w'
        = _has_relative_position w
          || negb (vec2_eqb (pos w) (window_pos w))
          || Lineage.finds_screen chain /\
      screen_events_bound w'
        = screen_events_bound w || Lineage.finds_screen chain /\
      window_on_draw_bound w'
        = window_on_draw_bound w || _has_relative_position w'.
Proof.
  rewrite lineage_check_unfold.
  unfold Lineage.stops_at_header_without_panel, Lineage.finds_screen,
    Lineage.chain_screen.
  set (h1 := _has_relative_position w
             || negb (vec2_eqb (pos w) (window_pos w))).
  destruct chain as [|self parents].
  - cbv beta iota zeta delta [bind ret gets modify].
    destruct w as [p s op dis wp el sr soft off sc tref hrp el' sc' ctx rc
                     clk seb wdb].
    cbn in h1 |- *. destruct h1; eexists; (split; [reflexivity|]); cbn;
      rewrite ?orb_false_r, ?orb_true_r; repeat split.
  - pose proof (walk_lineage_effect parents self
                  (set__has_relative_position h1 w)) as Hwalk.
    destruct (Lineage.first_screen self parents) as [a|].
    + destruct (Lineage.ancestor_header a) as [| |panel];
        [destruct Hwalk as [t Hwalk]| |destruct Hwalk as [t Hwalk]];
        unfold bind at 1; rewrite Hwalk;
        destruct w as [p s op dis wp el sr soft off sc tref hrp el' sc' ctx
                         rc clk seb wdb];
        cbv beta iota zeta delta [bind ret gets modify];
        eexists; (split; [reflexivity|]); cbn;
        rewrite ?orb_false_r, ?orb_true_r; repeat split.
    + unfold bind at 1. rewrite Hwalk.
      destruct w as [p s op dis wp el sr soft off sc tref hrp el' sc' ctx rc
                       clk seb wdb].
      cbv beta iota zeta delta [bind ret gets modify].
      cbn in h1 |- *. destruct h1; eexists; (split; [reflexivity|]); cbn;
        rewrite ?orb_false_r, ?orb_true_r; repeat split.
Qed.

(** Nothing but the attach-time check touches the bookkeeping: every
    other deferred closure, every screen event and every handler leaves
    the flag, the transition reference and both bindings as they were,
    whether it returns or raises. *)
Theorem only_the_walk_changes_bookkeeping (world : World) :
  keeps_bookkeeping (run_callback world cb_after_init) /\
  keeps_bookkeeping (run_callback world cb_set_shader_string) /\
  keeps_bookkeeping (run_callback world cb_after_init_elevation) /\
  (forall v, keeps_bookkeeping (run_callback world (cb_on_shadow_color v))) /\
  (forall v, keeps_bookkeeping (run_callback world (cb_on_shadow_radius v))) /\
  (forall v,
     keeps_bookkeeping (run_callback world (cb_on_shadow_softness v))) /\
  (forall v, keeps_bookkeeping (run_callback world (cb_on_elevation v))) /\
  (forall v, keeps_bookkeeping (deferred_on_opacity v)) /\
  (forall ev, keeps_bookkeeping (dispatch_screen_event world ev)) /\
  keeps_bookkeeping __init__ /\
  keeps_bookkeeping on_pos /\
  keeps_bookkeeping on_size /\
  (forall v, keeps_bookkeeping (on_shadow_offset v)) /\
  (forall v, keeps_bookkeeping (on_radius v)) /\
  (forall b, keeps_bookkeeping (assign_disabled b)) /\
  (forall v, keeps_bookkeeping (assign_shadow_offset v)).
Proof.
  destruct keeps_handlers as (Hoff & Hdis & Haoff & Hrad & _ & Hop & Hi).
  repeat apply conj; intros;
    try (apply keeps_callbacks; discriminate);
    auto using keeps_dispatch_screen_event, keeps_on_pos, keeps_on_size.
Qed.

Lemma bookkeeping_fields (a b : Widget) :
  bookkeeping a = bookkeeping b ->
  _has_relative_position a = _has_relative_position b /\
  screen_events_bound a = screen_events_bound b /\
  window_on_draw_bound a = window_on_draw_bound b.
Proof. unfold bookkeeping. intros H. injection H as -> _ -> ->. auto. Qed.

Lemma callback_is_check (cb : callback) :
  cb = cb_check_for_relative_behavior
  \/ cb <> cb_check_for_relative_behavior.
Proof. destruct cb; (now left) || (right; discriminate). Qed.

Lemma run_callback_invariant (world : World) (cb : callback) (w : Widget) :
  bound_only_if_relative w ->
  bound_only_if_relative (final (run_callback world cb w)) /\
  (_has_relative_position w = true ->
   _has_relative_position (final (run_callback world cb w)) = true).
Proof.
  intros [Hs Hd].
  destruct (callback_is_check cb) as [-> | Hcb].
  - cbn [run_callback].
    destruct (check_for_relative_behavior_bookkeeping world w)
      as (w' & -> & Hh' & Hs' & Hd' & _). cbn [final].
    unfold bound_only_if_relative. rewrite Hh', Hs', Hd', Hh'.
    destruct (_has_relative_position w), (screen_events_bound w),
      (window_on_draw_bound w), (vec2_eqb (pos w) (window_pos w)),
      (lineage_finds_screen world); cbn; auto.
  - destruct (bookkeeping_fields _ _ (keeps_callbacks world cb Hcb w))
      as (Hh' & Hs' & Hd'). unfold bound_only_if_relative.
    rewrite Hh', Hs', Hd'. split; [split|]; tauto.
Qed.

Lemma tick_invariant (world : World) (w : Widget) :
  bound_only_if_relative w ->
  bound_only_if_relative (final (tick world w)) /\
  (_has_relative_position w = true ->
   _has_relative_position (final (tick world w)) = true).
Proof.
  intros Hw. unfold tick. rewrite final_bind. cbn [gets].
  destruct (clock w) as [|cb rest] eqn:Hq.
  - cbn. tauto.
  - rewrite final_bind. cbn [modify].
    assert (Hset : bound_only_if_relative (set_clock rest w) /\
                   _has_relative_position (set_clock rest w)
                   = _has_relative_position w) by now destruct w.
    destruct Hset as [Hinv Hh]. rewrite <- Hh.
    now apply run_callback_invariant.
Qed.

(** Through any number of clock steps the bindings stay limited to
    widgets flagged as relatively positioned, and a flag that is set stays
    set. *)
Theorem bookkeeping_invariant (n : nat) (world : World) (w : Widget) :
  bound_only_if_relative w ->
  bound_only_if_relative (final (ticks n world w)) /\
  (_has_relative_position w = true ->
   _has_relative_position (final (ticks n world w)) = true).
Proof.
  revert w. induction n as [|n IH]; intros w Hw; cbn [ticks].
  - cbn. tauto.
  - rewrite final_bind.
    destruct (tick_invariant world w Hw) as [Hinv Hh].
    destruct (tick world w) as [[] s|e s]; cbn [final] in Hinv, Hh.
    + destruct (IH s Hinv) as [Hinv' Hh']. split; auto.
    + split; assumption.
Qed.


Lemma bookkeeping_invariant_witness :
  bound_only_if_relative
    (final (ticks 5 Scenario.fade_world Scenario.started)).
Proof.
  apply (bookkeeping_invariant 5 Scenario.fade_world Scenario.started).
  split; intro H; discriminate H.
Defined.

(** *** The test on the transition *)

Lemma prefix_empty (h : string) : String.prefix EmptyString h = true.
Proof. now destruct h. Qed.

Lemma append_cons (ch : Ascii.ascii) (a b : string) :
  (String ch a ++ b)%string = String ch (a ++ b).
Proof. reflexivity. Qed.

Lemma append_empty (b : string) : (EmptyString ++ b)%string = b.
Proof. reflexivity. Qed.

Lemma prefix_app (n b : string) : String.prefix n (n ++ b) = true.
Proof.
  induction n as [|ch n IH].
  - apply prefix_empty.
  - rewrite append_cons. cbn [String.prefix]. destruct (Ascii.ascii_dec ch ch); [exact IH|].
    congruence.
Qed.

Lemma prefix_split (n h : string) :
  String.prefix n h = true -> exists b, h = (n ++ b)%string.
Proof.
  revert h. induction n as [|ch n IH]; intros h H.
  - now exists h.
  - destruct h as [|ch' h]; [discriminate|]. cbn [String.prefix] in H.
    destruct (Ascii.ascii_dec ch ch') as [<-|]; [|discriminate].
    destruct (IH h H) as [b ->]. now exists b.
Qed.

Lemma contains_substring (n h : string) :
  contains n h = true <-> exists a b, h = (a ++ n ++ b)%string.
Proof.
  split.
  - induction h as [|ch h IH]; cbn [contains]; intros H;
      apply orb_true_iff in H; destruct H as [H|H].
    + destruct (prefix_split _ _ H) as [b ->]. now exists EmptyString, b.
    + discriminate.
    + destruct (prefix_split _ _ H) as [b Hb].
      exists EmptyString, b. exact Hb.
    + destruct (IH H) as (a & b & ->). now exists (String ch a), b.
  - intros (a & b & ->). induction a as [|ch a IH].
    + rewrite append_empty.
      assert (Hp : String.prefix n (n ++ b) = true) by apply prefix_app.
      destruct (n ++ b)%string; cbn [contains]; now rewrite Hp.
    + rewrite append_cons. cbn [contains]. rewrite IH. apply orb_true_r.
Qed.

(** [apply_correction] switches [use_parent_modelview] off exactly when
    the printed transition has SlideTransition or CardTransition somewhere
    in it, so a class whose name merely contains one of them counts as a
    slide; the uniforms and the quad are left alone. *)
Theorem slide_test_is_a_substring_test (world : World) (w : Widget)
  (c : RenderContext) (o : obj_id) :
  context w = Some c -> _transition_ref w = Some o ->
  exists w' c',
    apply_correction world w = Ok tt w' /\ context w' = Some c' /\
    uniforms c' = uniforms c /\ rect w' = rect w /\
    (use_parent_modelview c' = false <->
     exists a b,
       transition_str world o = (a ++ "SlideTransition" ++ b)%string
       \/ transition_str world o = (a ++ "CardTransition" ++ b)%string).
Proof.
  intros Hc Ht.
  destruct w as [p s op dis wp el sr soft off sc tref hrp el' sc' ctx rc
                   clk seb wdb].
  cbn [context _transition_ref] in Hc, Ht. subst.
  destruct c as [upm us fs]. py_run.
  destruct (contains "SlideTransition" (transition_str world o)) eqn:Es;
    [|destruct (contains "CardTransition" (transition_str world o)) eqn:Ec];
    py_run; (eexists _, _; split; [reflexivity|]; split; [reflexivity|]);
    py_run; (split; [reflexivity|]); (split; [reflexivity|]).
  - split; [intros _|reflexivity].
    apply contains_substring in Es. destruct Es as (a & b & E).
    exists a, b. now left.
  - split; [intros _|reflexivity].
    apply contains_substring in Ec. destruct Ec as (a & b & E).
    exists a, b. now right.
  - split; [discriminate|]. intros (a & b & [E|E]).
    + assert (H : contains "SlideTransition" (transition_str world o) = true)
        by (apply contains_substring; eauto).
      congruence.
    + assert (H : contains "CardTransition" (transition_str world o) = true)
        by (apply contains_substring; eauto).
      congruence.
Qed.

Lemma slide_test_is_a_substring_test_witness :
  exists w' c',
    apply_correction
      (Scenario.world_with "<MDFadeSlideTransition object>")
      Scenario.managed = Ok tt w' /\
    context w' = Some c' /\ use_parent_modelview c' = false.
Proof.
  edestruct (slide_test_is_a_substring_test
               (Scenario.world_with "<MDFadeSlideTransition object>")
               Scenario.managed)
    as (w' & c' & Hrun & Hc & _ & _ & Hiff); [reflexivity ..|].
  exists w', c'. split; [exact Hrun|]. split; [exact Hc|].
  apply Hiff. exists "<MDFade"%string, " object>"%string. left. reflexivity.
Defined.

(** An enter or leave event undoes whatever the pre-event decided:
    [apply_correction] followed by [reset_correction] is
    [reset_correction]. *)
Theorem enter_overrides_pre_enter (world : World) (w : Widget)
  (c : RenderContext) :
  context w = Some c ->
  (apply_correction world ;; reset_correction) w = reset_correction w.
Proof.
  intros Hc.
  destruct w as [p s op dis wp el sr soft off sc tref hrp el' sc' ctx rc
                   clk seb wdb].
  cbn [context] in Hc. subst. destruct c as [upm us fs].
  destruct tref as [o|]; py_run;
    [destruct (contains "SlideTransition" (transition_str world o)),
              (contains "CardTransition" (transition_str world o))|];
    py_run; reflexivity.
Qed.

Lemma enter_overrides_pre_enter_witness :
  (apply_correction Scenario.fade_world ;; reset_correction)
    Scenario.managed
  = reset_correction Scenario.managed.
Proof.
  eapply enter_overrides_pre_enter. reflexivity.
Defined.

(** *** Colour updates *)

(** The alpha of a colour handed to [on_shadow_color] never reaches the
    shader: the deferred update keeps red, green and blue and puts the
    widget's opacity in its place, or 0 when the widget is disabled. *)
Theorem shadow_color_alpha_is_replaced (r g b a : Q) (w : Widget)
  (c : RenderContext) :
  context w = Some c ->
  exists w' c',
    deferred_on_shadow_color [r; g; b; a] w = Ok tt w' /\
    _shadow_color w' = [r; g; b; if disabled w then 0 else opacity w] /\
    context w' = Some c' /\
    uniforms c' !! "shadow_color" = Some (UList (_shadow_color w')) /\
    forall a', deferred_on_shadow_color [r; g; b; a'] w = Ok tt w'.
Proof.
  intros Hc.
  destruct w as [p s op dis wp el sr soft off sc tref hrp el' sc' ctx rc
                   clk seb wdb].
  cbn [context] in Hc. subst. destruct c as [upm us fs].
  destruct dis; py_run; cbn [removelast app];
    (eexists _, _; split; [reflexivity|]); py_run;
    (split; [reflexivity|]); (split; [reflexivity|]);
    (split; [apply lookup_insert_eq | reflexivity]).
Qed.

Lemma shadow_color_alpha_is_replaced_witness :
  exists w',
    deferred_on_shadow_color [0; 0; 1; 0.8] Scenario.started = Ok tt w' /\
    _shadow_color w' = [0; 0; 1; 1].
Proof.
  edestruct (shadow_color_alpha_is_replaced 0 0 1 0.8 Scenario.started)
    as (w' & c' & Hrun & Hcol & _); [reflexivity|].
  exists w'. split; [exact Hrun | exact Hcol].
Defined.

(** When an elevation <= 0 hides the shadow of an enabled widget, the
    colour is zeroed only until the colour update it queues has run: that
    update sets the alpha to the widget's opacity. *)
Theorem hidden_color_regains_alpha (v : Q) (w : Widget) (c : RenderContext)
  (r : RoundedRectangle) :
  context w = Some c -> rect w = Some r ->
  disabled w = false -> v <= 0 ->
  exists w1 w2 c2,
    deferred_on_elevation v w = Ok tt w1 /\
    _elevation w1 = - elevation w /\
    _shadow_color w1 = [0; 0; 0; 0] /\
    clock w1 = clock w ++ [cb_on_shadow_color [0; 0; 0; 0]] /\
    deferred_on_shadow_color [0; 0; 0; 0] w1 = Ok tt w2 /\
    _shadow_color w2 = [0; 0; 0; opacity w] /\
    context w2 = Some c2 /\
    uniforms c2 !! "shadow_color" = Some (UList [0; 0; 0; opacity w]).
Proof.
  intros Hc Hr Hd Hv. open_widget w Hc Hr. cbn [disabled] in Hd. subst dis.
  destruct c as [upm us fs].
  assert (Hb : Qle_bool v 0 = true) by now apply Qle_bool_iff.
  py_run. rewrite Hb.
  destruct hrp, upm; py_run; cbn [removelast app];
    (eexists _, _, _; split; [reflexivity|]); py_run;
    (repeat (split; [reflexivity|])); apply lookup_insert_eq.
Qed.

Lemma hidden_color_regains_alpha_witness :
  exists w1 w2,
    deferred_on_elevation 0 Scenario.started = Ok tt w1 /\
    deferred_on_shadow_color [0; 0; 0; 0] w1 = Ok tt w2 /\
    _shadow_color w2 = [0; 0; 0; 1].
Proof.
  edestruct (hidden_color_regains_alpha 0 Scenario.started)
    as (w1 & w2 & c2 & H1 & _ & _ & _ & H2 & H3 & _);
    [reflexivity | reflexivity | reflexivity | cbn; discriminate |].
  exists w1, w2. split; [exact H1|]. split; [exact H2 | exact H3].
Defined.

(** The deferred opacity update does not look at [disabled]: on a widget
    that has just been disabled it gives the hidden colour the new opacity
    as alpha, while the effective elevation stays negated. *)
Theorem opacity_update_ignores_disabled (v : Q) (w : Widget)
  (c : RenderContext) (r : RoundedRectangle) :
  context w = Some c -> rect w = Some r -> disabled w = false ->
  exists w1 w2 c2,
    assign_disabled true w = Ok tt w1 /\
    _shadow_color w1 = [0; 0; 0; 0] /\
    deferred_on_opacity v w1 = Ok tt w2 /\
    disabled w2 = true /\
    _elevation w2 = - elevation w /\
    _shadow_color w2 = [0; 0; 0; v] /\
    context w2 = Some c2 /\
    uniforms c2 !! "shadow_color" = Some (UList [0; 0; 0; v]).
Proof.
  intros Hc Hr Hd. open_widget w Hc Hr. cbn [disabled] in Hd. subst dis.
  destruct c as [upm us fs].
  destruct hrp, upm; py_run;
    (eexists _, _, _; split; [reflexivity|]); py_run;
    (split; [reflexivity|]);
    cbv beta iota zeta delta [deferred_on_opacity]; py_run;
    cbn [removelast app];
    (split; [reflexivity|]); py_run;
    (repeat (split; [reflexivity|])); apply lookup_insert_eq.
Qed.


Lemma opacity_update_ignores_disabled_witness :
  exists w1 w2,
    assign_disabled true Scenario.lifted = Ok tt w1 /\
    deferred_on_opacity 0.5 w1 = Ok tt w2 /\
    _shadow_color w2 = [0; 0; 0; 0.5].
Proof.
  edestruct (opacity_update_ignores_disabled 0.5 Scenario.lifted)
    as (w1 & w2 & c2 & H1 & _ & H2 & _ & _ & H3 & _); [reflexivity ..|].
  exists w1, w2. split; [exact H1|]. split; [exact H2 | exact H3].
Defined.

(** *** Set-up *)

(** The walk touches the bookkeeping and nothing else. *)
Ltac flat :=
  cbv beta iota zeta delta
    [bind ret gets modify
     set_window_on_draw_bound set__transition_ref
     set__has_relative_position set_screen_events_bound
     pos size opacity disabled window_pos elevation shadow_radius
     shadow_softness shadow_offset shadow_color _transition_ref
     _has_relative_position _elevation _shadow_color context rect clock
     screen_events_bound window_on_draw_bound].

Lemma lineage_check_shape (chain : list Lineage.Ancestor) (w : Widget) :
  Lineage.stops_at_header_without_panel chain = false ->
  exists h t s d,
    Lineage.check_for_relative_behavior chain w
    = Ok tt (set_window_on_draw_bound d
               (set__transition_ref t
                  (set__has_relative_position h
                     (set_screen_events_bound s w)))).
Proof.
  intros Hstop. rewrite lineage_check_unfold.
  unfold Lineage.stops_at_header_without_panel, Lineage.chain_screen
    in Hstop.
  set (h1 := _has_relative_position w
             || negb (vec2_eqb (pos w) (window_pos w))).
  clearbody h1.
  destruct chain as [|self parents].
  - destruct w as [p sz op dis wp el sr soft off sc tref hrp el' sc' ctx rc
                     clk seb wdb].
    flat. destruct h1; eexists _, _, _, _; flat; reflexivity.
  - pose proof (walk_lineage_effect parents self
                  (set__has_relative_position h1 w)) as Hwalk.
    destruct (Lineage.first_screen self parents) as [a|].
    + destruct (Lineage.ancestor_header a) as [| |panel];
        [destruct Hwalk as [t Hwalk]
        |discriminate Hstop
        |destruct Hwalk as [t Hwalk]];
        unfold bind at 1; rewrite Hwalk;
        destruct w as [p sz op dis wp el sr soft off sc tref hrp el' sc' ctx
                         rc clk seb wdb];
        flat; eexists _, _, _, _; flat; reflexivity.
    + unfold bind at 1. rewrite Hwalk.
      destruct w as [p sz op dis wp el sr soft off sc tref hrp el' sc' ctx rc
                       clk seb wdb].
      flat. destruct h1; eexists _, _, _, _; flat; reflexivity.
Qed.

Lemma lineage_ticks_S (n : nat) (chain : list Lineage.Ancestor)
  (world : World) (w : Widget) :
  Lineage.ticks (S n) chain world w
  = match Lineage.tick chain world w with
    | Ok _ s => Lineage.ticks n chain world s
    | Raise e s => Raise e s
    end.
Proof. reflexivity. Qed.

(** Evaluates the clock step at the head of the goal on its explicit
    state, leaving the steps that follow folded. *)
Ltac eval_tick :=
  rewrite lineage_ticks_S;
  match goal with
  | |- context [Lineage.tick ?ch ?wd ?st] =>
      let r := eval cbv beta iota zeta delta
                 [Lineage.tick Lineage.run_callback
                  run_callback after_init set_shader_string
                  get_shader_string read_shader_files
                  bind ret raise gets modify
                  get_context get_rect context_setitem
                  set_use_parent_modelview schedule_once update_resolution
                  on_shadow_color on_shadow_radius on_shadow_softness
                  on_elevation on_pos on_size hide_elevation
                  deferred_on_shadow_color deferred_on_shadow_radius
                  deferred_on_shadow_softness deferred_on_elevation
                  set_disabled set_elevation set_shadow_radius
                  set_shadow_offset set__transition_ref
                  set__has_relative_position set__elevation
                  set__shadow_color set_context set_rect set_clock
                  set_screen_events_bound set_window_on_draw_bound
                  pos size opacity disabled window_pos elevation
                  shadow_radius shadow_softness shadow_offset shadow_color
                  _transition_ref _has_relative_position _elevation
                  _shadow_color context rect clock screen_events_bound
                  window_on_draw_bound rect_pos rect_size
                  use_parent_modelview uniforms shader_fs
                  fst snd negb orb andb]
               in (Lineage.tick ch wd st) in
      change (Lineage.tick ch wd st) with r
  end.

Ltac run_tick := eval_tick; cbv beta iota zeta; cbn [app].

(** Set-up completes: from any widget with an empty clock queue, with
    the three shader files present and an ancestor chain on which the walk
    does not stop at a header without panel, [__init__] and six clock
    steps return without error and leave the queue empty, the shader
    loaded, the stored elevation as it was, the effective elevation equal
    to it (negated when it is <= 0 or the widget is disabled), and the
    size, position, radius, softness and colour uniforms in agreement with
    the quad and the widget. *)
Theorem setup_completes_on_chain (chain : list Lineage.Ancestor)
  (world : World) (w : Widget) (h e m : string) :
  clock w = [] ->
  glsl_file world "header.frag" = Some h ->
  glsl_file world "elevation.frag" = Some e ->
  glsl_file world "main.frag" = Some m ->
  Lineage.stops_at_header_without_panel chain = false ->
  let hide := Qle_bool (elevation w) 0 || disabled w in
  exists w' c' r',
    (__init__ ;; Lineage.ticks 6 chain world) w = Ok tt w' /\
    clock w' = [] /\ context w' = Some c' /\ rect w' = Some r' /\
    shader_fs c'
      = Some (((h ++ newline ++ newline) ++ e ++ newline ++ newline)
                ++ m ++ newline ++ newline)%string /\
    elevation w' = elevation w /\
    _elevation w' = (if hide then - elevation w else elevation w) /\
    uniforms c' !! "size"
      = Some (UList [fst (rect_size r'); snd (rect_size r')]) /\
    uniforms c' !! "pos"
      = Some (UList [fst (rect_pos r'); snd (rect_pos r')]) /\
    uniforms c' !! "shadow_radius" = Some (UList (shadow_radius w)) /\
    uniforms c' !! "shadow_softness" = Some (UFloat (shadow_softness w)) /\
    uniforms c' !! "shadow_color" = Some (UList (_shadow_color w')) /\
    _shadow_color w'
      = (if hide then [0; 0; 0; if disabled w then 0 else opacity w]
         else removelast (shadow_color w) ++ [opacity w]).
Proof.
  intros Hq Hh He Hm Hstop hide. subst hide.
  destruct w as [p s op dis wp el sr soft off sc tref hrp el' sc' ctx rc
                   clk seb wdb].
  cbn [clock] in Hq. subst clk.
  cbv beta iota zeta delta
    [elevation disabled size shadow_softness shadow_radius shadow_color
     opacity].
  unfold bind at 1.
  change (__init__ ?st) with
    (Ok tt (mkWidget p s op dis wp el sr soft off sc tref hrp el' sc'
              (Some (mkContext false ∅ None)) (Some (mkRect p s))
              [cb_after_init] seb wdb)).
  cbv beta iota zeta.
  destruct hrp; run_tick.
  all: rewrite lineage_ticks_S;
    match goal with
    | |- context [Lineage.tick ?ch ?wd ?st] =>
        let r := eval cbv beta iota zeta delta
                   [Lineage.tick Lineage.run_callback
                    bind gets modify set_clock clock
                    pos size opacity disabled window_pos elevation
                    shadow_radius shadow_softness shadow_offset shadow_color
                    _transition_ref _has_relative_position _elevation
                    _shadow_color context rect screen_events_bound
                    window_on_draw_bound] in (Lineage.tick ch wd st) in
        change (Lineage.tick ch wd st) with r
    end;
    match goal with
    | |- context [Lineage.check_for_relative_behavior ?ch ?st] =>
        destruct (lineage_check_shape ch st Hstop)
          as (h' & t' & s' & d' & ->)
    end;
    flat.
  all: destruct h'.
  all: run_tick; rewrite Hh, He, Hm; cbv beta iota zeta.
  all: run_tick.
  all: eval_tick; destruct (Qle_bool el 0), dis; cbv beta iota zeta;
    cbn [app].
  all: run_tick.
  all: cbn [removelast app].
  all: eexists _, _, _; split; [reflexivity|].
  all: cbv beta iota zeta delta
         [clock context rect shader_fs elevation _elevation rect_size
          rect_pos uniforms _shadow_color fst snd orb].
  all: repeat (split; [reflexivity|]).
  all: try rewrite removelast_last.
  all: repeat (split;
               [first [ reflexivity
                      | rewrite ?lookup_insert; repeat case_decide;
                        try reflexivity; congruence ]|]).
  all: reflexivity.
Qed.

(** The class-default widget under a bottom-navigation tab that is in a
    panel. *)
Lemma setup_completes_on_chain_witness :
  exists w',
    (__init__ ;;
     Lineage.ticks 6 [LineageScenario.button; LineageScenario.tab]
       Scenario.fade_world) Scenario.fresh = Ok tt w' /\
    clock w' = [].
Proof.
  edestruct (setup_completes_on_chain
               [LineageScenario.button; LineageScenario.tab]
               Scenario.fade_world Scenario.fresh)
    as (w' & c' & r' & Hrun & Hq & _); [reflexivity ..|].
  exists w'. split; [exact Hrun | exact Hq].
Defined.

End ElevationExtra.

(** ** Further properties of the chip *)

Module ChipExtra.

Import Chip ChipTheory.
Local Open Scope Q_scope.
Local Open Scope py_scope.

Lemma eqb_empty_false (s : string) :
  s <> EmptyString -> String.eqb s EmptyString = false.
Proof. intros H. now apply String.eqb_neq. Qed.

(** A long touch on a chip with a left icon marks an unmarked chip and
    starts exactly the marking pair; a second long touch, like any long
    touch on a marked chip, changes nothing. *)
Theorem long_touch_marks_once (c : MDChip) :
  icon_left c <> EmptyString ->
  (active c = false ->
   exists c', on_long_touch c = Ok tt c' /\
     active c' = true /\
     animations c'
     = animations c ++
       [("icon_left_box"%string,
         mkAnimation [("md_bg_color"%string, Rgba 0 0 0 0.4)]
                     "out_sine" 0.1);
        ("check_icon"%string,
         mkAnimation [("scale_value_x"%string, Scalar 1);
                      ("scale_value_y"%string, Scalar 1);
                      ("scale_value_z"%string, Scalar 1)]
                     "out_sine" 0.1)] /\
     on_long_touch c' = Ok tt c') /\
  (active c = true -> on_long_touch c = Ok tt c).
Proof.
  intros Hi. destruct c as [p s il a st an]. cbn [icon_left] in Hi.
  pose proof (eqb_empty_false il Hi) as Hb.
  split; intros Ha; cbn [active] in Ha; subst a.
  - chip_run. rewrite Hb. chip_run.
    eexists; split; [reflexivity|]. chip_run. rewrite Hb.
    rewrite <- app_assoc. repeat split.
  - chip_run. rewrite Hb. reflexivity.
Qed.

Lemma long_touch_marks_once_witness :
  exists c', on_long_touch (Scenario.chip false) = Ok tt c' /\
             active c' = true /\ on_long_touch c' = Ok tt c'.
Proof.
  destruct (long_touch_marks_once (Scenario.chip false)) as [Hmark _];
    [discriminate|].
  destruct Hmark as (c' & Hrun & Ha & _ & Hagain); [reflexivity|].
  exists c'. split; [exact Hrun|]. split; [exact Ha | exact Hagain].
Defined.

(** A touch inside an unmarked chip is handed to the inherited handler
    with the chip untouched: no animation starts. *)
Theorem touch_on_unmarked_chip_only_delegates
  (super_on_touch_down : Touch -> M MDChip (option bool))
  (touch : Touch) (c : MDChip) :
  collide_point c (touch_pos touch) = true ->
  active c = false ->
  on_touch_down super_on_touch_down touch c = super_on_touch_down touch c.
Proof.
  intros Hcol Ha. destruct c as [p s il a st an].
  cbn [active] in Ha. subst a.
  unfold on_touch_down. cbv beta iota zeta delta [bind gets].
  rewrite Hcol. reflexivity.
Qed.

Lemma touch_on_unmarked_chip_only_delegates_witness :
  on_touch_down press_button Scenario.touch_inside (Scenario.chip false)
  = press_button Scenario.touch_inside (Scenario.chip false).
Proof.
  apply touch_on_unmarked_chip_only_delegates; reflexivity.
Defined.

(** Marking and unmarking compose: a long touch followed by a touch inside
    the chip hands the inherited handler a chip that is unmarked again,
    with the marking pair and then the unmarking pair started and nothing
    else changed. *)
Theorem long_touch_then_touch
  (super_on_touch_down : Touch -> M MDChip (option bool))
  (touch : Touch) (c : MDChip) :
  icon_left c <> EmptyString -> active c = false ->
  collide_point c (touch_pos touch) = true ->
  exists c',
    (on_long_touch ;; on_touch_down super_on_touch_down touch) c
    = super_on_touch_down touch c' /\
    active c' = false /\ icon_left c' = icon_left c /\
    pos c' = pos c /\ size c' = size c /\ state c' = state c /\
    animations c'
    = animations c ++
      [("icon_left_box"%string,
        mkAnimation [("md_bg_color"%string, Rgba 0 0 0 0.4)]
                    "out_sine" 0.1);
       ("check_icon"%string,
        mkAnimation [("scale_value_x"%string, Scalar 1);
                     ("scale_value_y"%string, Scalar 1);
                     ("scale_value_z"%string, Scalar 1)]
                    "out_sine" 0.1);
       ("icon_left_box"%string,
        mkAnimation [("md_bg_color"%string, Rgba 0 0 0 0)]
                    "out_sine" 0.1);
       ("check_icon"%string,
        mkAnimation [("scale_value_x"%string, Scalar 0);
                     ("scale_value_y"%string, Scalar 0);
                     ("scale_value_z"%string, Scalar 0)]
                    "out_sine" 0.1)].
Proof.
  intros Hi Ha Hcol. destruct c as [p s il a st an].
  cbn [icon_left active] in Hi, Ha. subst a.
  pose proof (eqb_empty_false il Hi) as Hb.
  unfold collide_point in Hcol. cbn [pos size] in Hcol.
  chip_run. rewrite Hb. chip_run.
  unfold collide_point. cbn [pos size]. rewrite Hcol. chip_run.
  eexists; split; [reflexivity|]. chip_run.
  repeat (split; [reflexivity|]).
  now rewrite <- !app_assoc.
Qed.

Lemma long_touch_then_touch_witness :
  exists c',
    (on_long_touch ;; on_touch_down press_button Scenario.touch_inside)
      (Scenario.chip false)
    = press_button Scenario.touch_inside c' /\
    active c' = false /\ length (animations c') = 4%nat.
Proof.
  destruct (long_touch_then_touch press_button Scenario.touch_inside
              (Scenario.chip false))
    as (c' & Hrun & Ha & _ & _ & _ & _ & Han);
    [discriminate | reflexivity | reflexivity |].
  exists c'. split; [exact Hrun|]. split; [exact Ha|].
  rewrite Han. reflexivity.
Defined.

End ChipExtra.
